(** * Career Compass API ([my-backend/main.py]): a shallow embedding

    The backend is a single FastAPI module.  Its handlers are embedded as
    computations in a small state-and-exception monad over the process
    state (the user table, the loaded mock document and the identifier
    source behind [uuid.uuid4]); Python values that come out of
    [json.load] are embedded as an inductive type with Python's
    truthiness, [dict.get], subscripting and iteration written out. *)

From Stdlib Require Import ZArith QArith List String Ascii Bool Lia.
From Stdlib Require Import SpecFloat.
From stdpp Require Import base option gmap strings list.

Import ListNotations.
Local Open Scope Z_scope.
Local Open Scope string_scope.
Local Open Scope list_scope.
Local Open Scope stdpp_scope.
Local Set Warnings "-register-all".

(** ** Python values *)

Module Py.

(** A Python [dict] with string keys, as the list of its items in
    insertion order.  A [dict] holds a key once; a lookup takes the first
    item under the key. *)
Definition dict (A : Type) : Type := list (string * A).

(** What [json.load] produces: [None], [bool], [int] (unbounded),
    [float] (binary64, including the non-finite values Python's decoder
    accepts), [str], [list] and [dict]. *)
Inductive json : Type :=
| JNull
| JBool (b : bool)
| JInt (z : Z)
| JFloat (f : spec_float)
| JStr (s : string)
| JArr (l : list json)
| JObj (d : list (string * json)).

Fixpoint dict_get {A} (d : dict A) (k : string) : option A :=
  match d with
  | [] => None
  | (k', v) :: d' => if String.eqb k' k then Some v else dict_get d' k
  end.

Definition dict_keys {A} (d : dict A) : list string := map fst d.

(** [key in d] *)
Definition dict_has {A} (d : dict A) (k : string) : bool :=
  match dict_get d k with Some _ => true | None => false end.

(** [bool(v)]: Python's truth value testing. *)
Definition truthy (v : json) : bool :=
  match v with
  | JNull => false
  | JBool b => b
  | JInt z => negb (z =? 0)%Z
  | JFloat (S754_zero _) => false
  | JFloat _ => true
  | JStr s => negb (String.eqb s "")
  | JArr [] => false
  | JArr (_ :: _) => true
  | JObj [] => false
  | JObj (_ :: _) => true
  end.

(** The characters of a [str], each as a one-character [str]. *)
Fixpoint str_chars (s : string) : list json :=
  match s with
  | EmptyString => []
  | String c s' => JStr (String c EmptyString) :: str_chars s'
  end.

End Py.
Import Py.

(** ** Exceptions and results *)

Inductive exn : Type :=
| HTTPException (status_code : Z) (detail : string)
                (headers : list (string * string))
| AttributeError
| KeyError (key : string)
| TypeError
| ValidationError.

Inductive result (A : Type) : Type :=
| Return (a : A)
| Raise (e : exn).
Arguments Return {A} a.
Arguments Raise {A} e.

Definition HTTP_401_UNAUTHORIZED : Z := 401.

Global Instance result_ret : MRet result := @Return.
Global Instance result_bind : MBind result := fun A B k r =>
  match r with
  | Return a => k a
  | Raise e => Raise e
  end.

(** *** Python operations that can raise *)

(** [v.get(k, default)]: only a [dict] has the method. *)
Definition py_get (v : json) (k : string) (dflt : json) : result json :=
  match v with
  | JObj d => Return (default dflt (dict_get d k))
  | _ => Raise AttributeError
  end.

(** [v[k]] with a string key. *)
Definition py_getitem (v : json) (k : string) : result json :=
  match v with
  | JObj d =>
      match dict_get d k with
      | Some x => Return x
      | None => Raise (KeyError k)
      end
  | _ => Raise TypeError
  end.

(** [for x in v]: the items a [for] loop visits, in order. *)
Definition py_iter (v : json) : result (list json) :=
  match v with
  | JArr l => Return l
  | JObj d => Return (map JStr (dict_keys d))
  | JStr s => Return (str_chars s)
  | _ => Raise TypeError
  end.

(** ** Pydantic models *)

Record UserInDB : Type := {
  username : string;
  email : option string;
  disabled : option bool;
  hashed_password : string
}.

Record QuizAnswer : Type := {
  question_id : string;
  answer : Z
}.

Record QuizSubmission : Type := {
  answers : list QuizAnswer
}.

Record PersonalityProfile : Type := {
  MBTI : string;
  OCEAN : dict json;
  interests : list string
}.

(** ** Quiz classifier *)

(** [sum(1 for q in quiz_answers.answers if q.answer > 3)] *)
Fixpoint positive_answers (l : list QuizAnswer) : Z :=
  match l with
  | [] => 0
  | q :: l' => ((if 3 <? answer q then 1 else 0) + positive_answers l')%Z
  end.

(** [len(...) / 2] is Python's true division; comparing an [int] with the
    quotient is exact, so both sides are taken as rationals. *)
Definition exceeds_half (count : Z) (len : nat) : bool :=
  negb (Qle_bool (inject_Z count) (inject_Z (Z.of_nat len) / 2)).

Definition profile_A : PersonalityProfile :=
  {| MBTI := "ESTJ";
     OCEAN := [("Openness", JInt 4); ("Conscientiousness", JInt 5);
               ("Extraversion", JInt 4); ("Agreeableness", JInt 3);
               ("Neuroticism", JInt 2)];
     interests := ["Technology"; "Leadership"; "Problem Solving"] |}.

Definition profile_B : PersonalityProfile :=
  {| MBTI := "INFP";
     OCEAN := [("Openness", JInt 3); ("Conscientiousness", JInt 3);
               ("Extraversion", JInt 2); ("Agreeableness", JInt 4);
               ("Neuroticism", JInt 3)];
     interests := ["Art"; "Writing"; "Helping Others"] |}.

Definition classify_personality (quiz_answers : QuizSubmission)
  : PersonalityProfile :=
  let positive := positive_answers (answers quiz_answers) in
  if exceeds_half positive (length (answers quiz_answers)) then
    {| MBTI := "ESTJ";
       OCEAN := [("Openness", JInt 4); ("Conscientiousness", JInt 5);
                 ("Extraversion", JInt 4); ("Agreeableness", JInt 3);
                 ("Neuroticism", JInt 2)];
       interests := ["Technology"; "Leadership"; "Problem Solving"] |}
  else
    {| MBTI := "INFP";
       OCEAN := [("Openness", JInt 3); ("Conscientiousness", JInt 3);
                 ("Extraversion", JInt 2); ("Agreeableness", JInt 4);
                 ("Neuroticism", JInt 3)];
       interests := ["Art"; "Writing"; "Helping Others"] |}.

(** The number of answers strictly greater than 3, as a count. *)
Definition count_gt3 (l : list QuizAnswer) : nat :=
  length (List.filter (fun q => (3 <? answer q)%Z) l).


(** ** Process state and the handler monad *)

(** Module-level state of the process: [users_db], [combined_mock_data],
    and the source [uuid.uuid4] draws from ([uuid_source n] is the text of
    the [n]-th identifier it hands out, [uuid_drawn] how many were taken). *)
Record AppState : Type := {
  users_db : gmap string UserInDB;
  combined_mock_data : json;
  uuid_source : nat -> string;
  uuid_drawn : nat
}.

Definition M (A : Type) : Type := AppState -> result A * AppState.

Definition ret {A} (a : A) : M A := fun st => (Return a, st).

Definition bind {A B} (m : M A) (k : A -> M B) : M B := fun st =>
  match m st with
  | (Return a, st') => k a st'
  | (Raise e, st') => (Raise e, st')
  end.

Global Instance M_ret : MRet M := @ret.
Global Instance M_bind : MBind M := fun A B k m => bind m k.

Definition raise {A} (e : exn) : M A := fun st => (Raise e, st).

Definition lift {A} (r : result A) : M A := fun st => (r, st).

Definition read_users_db : M (gmap string UserInDB) :=
  fun st => (Return (users_db st), st).

Definition read_combined_mock_data : M json :=
  fun st => (Return (combined_mock_data st), st).

(** [str(uuid.uuid4())] *)
Definition uuid4_str : M string := fun st =>
  (Return (uuid_source st (uuid_drawn st)),
   {| users_db := users_db st;
      combined_mock_data := combined_mock_data st;
      uuid_source := uuid_source st;
      uuid_drawn := S (uuid_drawn st) |}).

(** ** Module initialisation *)

Definition seed_users_db : gmap string UserInDB :=
  {[ "testuser" :=
       {| username := "testuser";
          email := Some "test@example.com";
          disabled := Some false;
          hashed_password := "fakehashedpassword" |} ]}.

(** [file] is the decoded content of [combined_mock_data.json], [None]
    when opening it raises [FileNotFoundError]. *)
Definition load_combined_mock_data (file : option json) : json :=
  match file with
  | Some doc => doc
  | None => JObj []
  end.

Definition startup (file : option json) (source : nat -> string) : AppState :=
  {| users_db := seed_users_db;
     combined_mock_data := load_combined_mock_data file;
     uuid_source := source;
     uuid_drawn := 0 |}.

(** ** Auth stub *)

Definition get_user (username : string) : M (option UserInDB) :=
  db ← read_users_db;
  mret (db !! username).

Definition verify_password (plain_password hashed_password : string) : bool :=
  String.eqb plain_password hashed_password.

(** Python returns [False] where this returns [None]. *)
Definition authenticate_user (username password : string)
  : M (option UserInDB) :=
  user ← get_user username;
  match user with
  | None => mret None
  | Some u =>
      if negb (verify_password password (hashed_password u)) then mret None
      else mret (Some u)
  end.

Definition bearer_headers : list (string * string) :=
  [("WWW-Authenticate", "Bearer")].

Definition get_current_user (token : string) : M UserInDB :=
  user ← get_user token;
  match user with
  | None =>
      raise (HTTPException HTTP_401_UNAUTHORIZED
               "Invalid authentication credentials" bearer_headers)
  | Some u => mret u
  end.

(** [current_user: User = Depends(get_current_user)]: the dependency is
    resolved first and the handler body runs on its value. *)
Definition Depends_get_current_user {A} (token : string)
    (body : UserInDB -> M A) : M A :=
  current_user ← get_current_user token;
  body current_user.

Definition login_for_access_token (form_username form_password : string)
  : M json :=
  user ← authenticate_user form_username form_password;
  match user with
  | None =>
      raise (HTTPException HTTP_401_UNAUTHORIZED
               "Incorrect username or password" bearer_headers)
  | Some u =>
      mret (JObj [("access_token", JStr (username u));
                  ("token_type", JStr "bearer")])
  end.

(** ** Response models and their serialisation *)

Record CareerRecommendation : Type := {
  career : string;
  required_skills : list string;
  salary : string;
  growth_potential : string;
  future_trends : list string
}.

Record CareerTrendItem : Type := {
  trend_name : string;
  summary : string;
  status : string;
  trend_score : spec_float
}.

Record Event : Type := {
  time : string;
  title : string;
  description : string;
  visual_prompt : string;
  media_type : string;
  media_url : string
}.

Record TimelineResponse : Type := {
  session_id : string;
  person_id : string;
  timeline : list Event
}.

Definition str_list (l : list string) : json := JArr (map JStr l).

(** [.dict()] of each model, and what the response encoder emits. *)
Definition PersonalityProfile_dict (p : PersonalityProfile) : json :=
  JObj [("MBTI", JStr (MBTI p)); ("OCEAN", JObj (OCEAN p));
        ("interests", str_list (interests p))].

Definition CareerRecommendation_dict (r : CareerRecommendation) : json :=
  JObj [("career", JStr (career r));
        ("required_skills", str_list (required_skills r));
        ("salary", JStr (salary r));
        ("growth_potential", JStr (growth_potential r));
        ("future_trends", str_list (future_trends r))].

Definition CareerTrendItem_dict (t : CareerTrendItem) : json :=
  JObj [("trend_name", JStr (trend_name t)); ("summary", JStr (summary t));
        ("status", JStr (status t)); ("trend_score", JFloat (trend_score t))].

Definition Event_dict (e : Event) : json :=
  JObj [("time", JStr (time e)); ("title", JStr (title e));
        ("description", JStr (description e));
        ("visual_prompt", JStr (visual_prompt e));
        ("media_type", JStr (media_type e));
        ("media_url", JStr (media_url e))].

Definition TimelineResponse_dict (t : TimelineResponse) : json :=
  JObj [("session_id", JStr (session_id t));
        ("person_id", JStr (person_id t));
        ("timeline", JArr (map Event_dict (timeline t)))].

(** The binary64 values of the literals [0.95], [0.88], [0.75], [0.30]. *)
Definition float_0_95 : spec_float := S754_finite false 8556839292003942 (-53).
Definition float_0_88 : spec_float := S754_finite false 7926335344172073 (-53).
Definition float_0_75 : spec_float := S754_finite false 6755399441055744 (-53).
Definition float_0_30 : spec_float := S754_finite false 5404319552844595 (-54).

(** ** Endpoints behind the bearer identity *)

Definition read_root : M json :=
  mret (JObj [("message", JStr "Welcome to Career Compass API")]).

Definition submit_quiz (quiz_submission : QuizSubmission) (token : string)
  : M json :=
  Depends_get_current_user token (fun current_user =>
    let personality_profile := classify_personality quiz_submission in
    mret (JObj [("message", JStr "Quiz submitted successfully");
                ("profile", PersonalityProfile_dict personality_profile);
                ("user", JStr (username current_user))])).

Definition get_career_recommendations (profile : PersonalityProfile)
    (token : string) : M json :=
  Depends_get_current_user token (fun current_user =>
    let recommendations :=
      [ {| career := "AI Engineer";
           required_skills := ["Python"; "Machine Learning"; "Deep Learning";
                               "Cloud Platforms"];
           salary := "$120,000 - $180,000";
           growth_potential := "High";
           future_trends := ["Generative AI"; "Ethical AI";
                             "AI in Healthcare"] |};
        {| career := "Data Scientist";
           required_skills := ["Python/R"; "Statistics"; "Data Visualization";
                               "SQL"];
           salary := "$110,000 - $170,000";
           growth_potential := "High";
           future_trends := ["Big Data Analytics"; "Predictive Modeling";
                             "Data Governance"] |};
        {| career := "UX Designer";
           required_skills := ["UI/UX Principles"; "Wireframing";
                               "Prototyping"; "User Research"];
           salary := "$80,000 - $130,000";
           growth_potential := "Medium-High";
           future_trends := ["AI in UX"; "Voice User Interfaces (VUI)";
                             "Inclusive Design"] |} ] in
    mret (JObj [("recommendations",
                 JArr (map CareerRecommendation_dict recommendations));
                ("user", JStr (username current_user))])).

Definition get_career_trends (token : string) : M json :=
  Depends_get_current_user token (fun current_user =>
    let trends :=
      [ {| trend_name := "AI Ethics Specialist";
           summary := "Growing demand for ethical considerations in AI development.";
           status := "rising";
           trend_score := float_0_95 |};
        {| trend_name := "Green Energy Consultant";
           summary := "Increasing focus on sustainable energy solutions.";
           status := "rising";
           trend_score := float_0_88 |};
        {| trend_name := "Blockchain Developer";
           summary := "Continued, but more specialized, demand in decentralized technologies.";
           status := "stable";
           trend_score := float_0_75 |};
        {| trend_name := "Traditional Retail Manager";
           summary := "Facing challenges due to e-commerce growth and automation.";
           status := "falling";
           trend_score := float_0_30 |} ] in
    mret (JArr (map CareerTrendItem_dict trends))).

Definition generate_simulation (token : string) : M json :=
  Depends_get_current_user token (fun current_user =>
    let scenario :=
      JObj [("description", JStr "You are leading a project to develop a new AI-powered recommendation system. A critical deadline is approaching, and your team is facing unexpected technical challenges.");
            ("micro_opportunities",
             JArr [JObj [("opportunity", JStr "Delegating tasks effectively to team members.");
                         ("action", JStr "Delegate specific sub-tasks to optimize workflow.")];
                   JObj [("opportunity", JStr "Communicating with stakeholders about potential delays.");
                         ("action", JStr "Prepare a concise update for stakeholders outlining challenges and revised timeline.")]])] in
    mret (JObj [("scenario", scenario);
                ("user", JStr (username current_user))])).

(** ** Mock-data endpoints *)

(** Validation of a [str] field by pydantic.  A [str] is accepted as it
    is; what happens to any other value depends on the installed pydantic
    (coercion or rejection) and is left to the instance. *)
Class Pydantic : Type := {
  validate_str : json -> option string;
  validate_str_JStr : forall s, validate_str (JStr s) = Some s
}.

(** The instance that accepts a [str] and nothing else. *)
Definition strict_pydantic : Pydantic :=
  {| validate_str := fun v => match v with JStr s => Some s | _ => None end;
     validate_str_JStr := fun s => eq_refl |}.

Definition not_found (detail : string) : exn := HTTPException 404 detail [].

(** [GET /api/trends], the second function named [get_career_trends]. *)
Definition get_career_trends' (career metric : string) : M json :=
  data ← read_combined_mock_data;
  career_data ← lift (py_get data career JNull);
  if negb (truthy career_data) then raise (not_found "Career not found")
  else
    trends ← lift (py_get career_data "trends" (JObj []));
    trends_data ← lift (py_get trends metric JNull);
    if negb (truthy trends_data) then
      raise (not_found ("Metric " +:+ metric +:+ " not found for this career"))
    else
      let insight :=
        "This is a mock insight for " +:+ career +:+ " " +:+ metric +:+
        " trends. Gemini integration will fill missing data and provide real insights here later." in
      mret (JObj [("data", trends_data); ("insight", JStr insight)]).

(** [GET /], registered a second time. *)
Definition read_root' : M json :=
  mret (JObj [("message", JStr "Welcome to the Career Trends API")]).

Section Simulate.
Context {V : Pydantic}.

(** [Event(time=..., ...)]: every field is validated as a [str]. *)
Definition Event_init (time title description visual_prompt media_type
                       media_url : json) : result Event :=
  match validate_str time, validate_str title, validate_str description,
        validate_str visual_prompt, validate_str media_type,
        validate_str media_url with
  | Some t, Some ti, Some d, Some vp, Some mt, Some mu =>
      Return {| time := t; title := ti; description := d;
                visual_prompt := vp; media_type := mt; media_url := mu |}
  | _, _, _, _, _, _ => Raise ValidationError
  end.

(** One turn of the loop body, up to the value appended. *)
Definition event_of_template (event_template : json) : result Event :=
  media_url ← py_get event_template "media_url" (JStr "");
  time ← py_getitem event_template "time";
  title ← py_getitem event_template "title";
  description ← py_getitem event_template "description";
  visual_prompt ← py_getitem event_template "visual_prompt";
  media_type ← py_getitem event_template "media_type";
  Event_init time title description visual_prompt media_type media_url.

(** The [for] loop over the templates, appending to [timeline_events]. *)
Fixpoint simulate_loop (templates : list json) (timeline_events : list Event)
  : result (list Event) :=
  match templates with
  | [] => Return timeline_events
  | event_template :: rest =>
      ev ← event_of_template event_template;
      simulate_loop rest (timeline_events ++ [ev])
  end.

Definition simulate_career (person_id : string)
    (scenario_params : option (dict json)) : M TimelineResponse :=
  data ← read_combined_mock_data;
  persona ← lift (py_get data person_id JNull);
  if negb (truthy persona) then raise (not_found "Persona not found")
  else
    let timeline_events := [] in
    session_id ← uuid4_str;
    templates_obj ← lift (py_get persona "events_template" (JArr []));
    templates ← lift (py_iter templates_obj);
    timeline_events ← lift (simulate_loop templates timeline_events);
    mret {| session_id := session_id;
            person_id := person_id;
            timeline := timeline_events |}.

End Simulate.

(** ** Routing *)

Inductive http_method : Type := GET | POST.

Definition http_method_eqb (a b : http_method) : bool :=
  match a, b with
  | GET, GET | POST, POST => true
  | _, _ => false
  end.

(** A request once FastAPI has extracted and validated the parameters the
    endpoints declare: [token] is what [oauth2_scheme] reads from the
    [Authorization] header, the form fields are those of
    [OAuth2PasswordRequestForm], the bodies and query parameters are those
    named in the handlers' signatures. *)
Record Request : Type := {
  req_method : http_method;
  req_path : string;
  req_token : string;
  req_form_username : string;
  req_form_password : string;
  req_quiz_submission : QuizSubmission;
  req_profile : PersonalityProfile;
  req_career : string;
  req_metric : string;
  req_person_id : string;
  req_scenario_params : option (dict json)
}.

Record Route : Type := {
  route_method : http_method;
  route_path : string;
  route_endpoint : Request -> M json
}.

Section App.
Context {V : Pydantic}.

(** The path operations in the order the decorators register them. *)
Definition routes : list Route :=
  [ {| route_method := POST; route_path := "/token";
       route_endpoint := fun r =>
         login_for_access_token (req_form_username r) (req_form_password r) |};
    {| route_method := GET; route_path := "/";
       route_endpoint := fun _ => read_root |};
    {| route_method := POST; route_path := "/quiz/submit";
       route_endpoint := fun r =>
         submit_quiz (req_quiz_submission r) (req_token r) |};
    {| route_method := GET; route_path := "/careers/recommend";
       route_endpoint := fun r =>
         get_career_recommendations (req_profile r) (req_token r) |};
    {| route_method := GET; route_path := "/careers/trends";
       route_endpoint := fun r => get_career_trends (req_token r) |};
    {| route_method := POST; route_path := "/simulation/generate";
       route_endpoint := fun r => generate_simulation (req_token r) |};
    {| route_method := GET; route_path := "/api/trends";
       route_endpoint := fun r =>
         get_career_trends' (req_career r) (req_metric r) |};
    {| route_method := GET; route_path := "/";
       route_endpoint := fun _ => read_root' |};
    {| route_method := GET; route_path := "/simulate";
       route_endpoint := fun r =>
         resp ← simulate_career (req_person_id r) (req_scenario_params r);
         mret (TimelineResponse_dict resp) |} ].

Definition full_match (r : Request) (rt : Route) : bool :=
  String.eqb (route_path rt) (req_path r)
  && http_method_eqb (route_method rt) (req_method r).

Definition path_match (r : Request) (rt : Route) : bool :=
  String.eqb (route_path rt) (req_path r).

(** The router walks the table from the front and hands the request to
    the first route that matches path and method; a path served under
    another method only is answered 405, an unknown path 404. *)
Definition dispatch (table : list Route) (r : Request) : M json :=
  match List.find (full_match r) table with
  | Some rt => route_endpoint rt r
  | None =>
      match List.find (path_match r) table with
      | Some _ => raise (HTTPException 405 "Method Not Allowed" [])
      | None => raise (HTTPException 404 "Not Found" [])
      end
  end.

Definition app (r : Request) : M json := dispatch routes r.

End App.

(** *** Observations used in the statements *)

(** The state components no handler may write. *)
Definition same_tables (st st' : AppState) : Prop :=
  users_db st' = users_db st
  /\ combined_mock_data st' = combined_mock_data st.

(** A computation that leaves both tables as they were, whatever it
    returns or raises. *)
Definition read_only {A} (m : M A) : Prop :=
  forall st, same_tables st (m st).2.

(** A response object with its ["user"] entry taken out. *)
Definition without_user (resp : json) : json :=
  match resp with
  | JObj d => JObj (List.filter (fun kv => negb (String.eqb kv.1 "user")) d)
  | v => v
  end.

(** Every key of the table names the record stored under it. *)
Definition keys_are_usernames (db : gmap string UserInDB) : Prop :=
  forall k u, db !! k = Some u -> username u = k.

(** The credential check of the login contract, read off the table. *)
Definition credentials_ok (db : gmap string UserInDB)
    (name password : string) : Prop :=
  exists u, db !! name = Some u /\ password = hashed_password u.

Definition unauthorized (detail : string) : exn :=
  HTTPException 401 detail [("WWW-Authenticate", "Bearer")].

(** The four path operations that declare [Depends(get_current_user)]. *)
Definition protected_paths : list (http_method * string) :=
  [(POST, "/quiz/submit"); (GET, "/careers/recommend");
   (GET, "/careers/trends"); (POST, "/simulation/generate")].

(** The two answers of [GET /api/trends] past the career check. *)
Definition metric_not_found (metric : string) : exn :=
  not_found ("Metric " +:+ metric +:+ " not found for this career").

Definition trends_response (career metric : string) (data : json) : json :=
  JObj [("data", data);
        ("insight",
         JStr ("This is a mock insight for " +:+ career +:+ " " +:+ metric +:+
               " trends. Gemini integration will fill missing data and provide real insights here later."))].

(** An event that copies a template: the five required fields are the
    template's, and [media_url] is the template's when it has one, the
    empty string when it has none. *)
Definition copies_template (event_template : json) (e : Event) : Prop :=
  exists t,
    event_template = JObj t
    /\ dict_get t "time" = Some (JStr (time e))
    /\ dict_get t "title" = Some (JStr (title e))
    /\ dict_get t "description" = Some (JStr (description e))
    /\ dict_get t "visual_prompt" = Some (JStr (visual_prompt e))
    /\ dict_get t "media_type" = Some (JStr (media_type e))
    /\ ((dict_get t "media_url" = None /\ media_url e = "")
        \/ dict_get t "media_url" = Some (JStr (media_url e))).

(** The state after one more identifier has been drawn. *)
Definition after_draw (st : AppState) : AppState :=
  {| users_db := users_db st;
     combined_mock_data := combined_mock_data st;
     uuid_source := uuid_source st;
     uuid_drawn := S (uuid_drawn st) |}.

(** The process serving a sequence of requests one after the other. *)
Fixpoint serve {V : Pydantic} (rs : list Request) (st : AppState) : AppState :=
  match rs with
  | [] => st
  | r :: rs' => serve rs' (app r st).2
  end.

(** *** Sample documents and requests *)

Definition sample_source (n : nat) : string :=
  match n with
  | O => "3f2b8c1e-0000-4000-8000-000000000000"
  | _ => "3f2b8c1e-0000-4000-8000-000000000001"
  end.

Definition sample_doc : json :=
  JObj [("vacant", JObj []);
        ("swe", JObj [("trends", JObj [("salary", JArr [JInt 100; JInt 120]);
                                       ("openings", JArr [])]);
                      ("events_template",
                       JArr [JObj [("time", JStr "09:00");
                                   ("title", JStr "Stand-up");
                                   ("description", JStr "Daily sync");
                                   ("visual_prompt", JStr "team at a board");
                                   ("media_type", JStr "image")];
                             JObj [("time", JStr "14:00");
                                   ("title", JStr "Review");
                                   ("description", JStr "Code review");
                                   ("visual_prompt", JStr "two screens");
                                   ("media_type", JStr "video");
                                   ("media_url", JStr "https://cdn/r.mp4")]])]);
        ("intern", JObj [("trends", JObj [])]);
        ("draft", JObj [("events_template",
                         JArr [JObj [("time", JStr "09:00")]])])].

Definition sample_state : AppState := startup (Some sample_doc) sample_source.

Definition sample_request (m : http_method) (p token : string) : Request :=
  {| req_method := m; req_path := p; req_token := token;
     req_form_username := "testuser";
     req_form_password := "fakehashedpassword";
     req_quiz_submission := {| answers := [] |};
     req_profile := profile_B;
     req_career := "swe"; req_metric := "salary"; req_person_id := "swe";
     req_scenario_params := None |}.
(** *** Further observations *)

(** The count of the classifier, on the bare answer values. *)
Fixpoint positive_values (zs : list Z) : Z :=
  match zs with
  | [] => 0
  | z :: zs' => ((if 3 <? z then 1 else 0) + positive_values zs')%Z
  end.

(** Two user tables that hold the same keys and agree, key by key, on
    [username] and [hashed_password]; [email] and [disabled] are free. *)
Definition same_credentials (db1 db2 : gmap string UserInDB) : Prop :=
  forall k,
    match db1 !! k, db2 !! k with
    | Some u1, Some u2 =>
        username u1 = username u2
        /\ hashed_password u1 = hashed_password u2
    | None, None => True
    | _, _ => False
    end.

(** The state with another user table in place of [users_db]. *)
Definition with_users_db (st : AppState) (db : gmap string UserInDB)
  : AppState :=
  {| users_db := db;
     combined_mock_data := combined_mock_data st;
     uuid_source := uuid_source st;
     uuid_drawn := uuid_drawn st |}.

(** The identifier source is the same and has not moved back. *)
Definition source_advanced (st st' : AppState) : Prop :=
  uuid_source st' = uuid_source st /\ (uuid_drawn st <= uuid_drawn st')%nat.

(** A computation that keeps a relation between the state it starts in
    and the state it ends in. *)
Definition keeps {A} (R : AppState -> AppState -> Prop) (m : M A) : Prop :=
  forall st, R st (m st).2.

(** A computation that never reads the user table: run on another table
    it gives the same outcome and moves the rest of the state alike. *)
Definition ignores_users_db {A} (m : M A) : Prop :=
  forall st db,
    m (with_users_db st db) = ((m st).1, with_users_db (m st).2 db).

(** An identifier source that never repeats itself: [n] strokes. *)
Fixpoint tally (n : nat) : string :=
  match n with
  | O => ""
  | S n' => String "|" (tally n')
  end.

(** The fields the loop of [simulate_career] reads by subscript, in the
    order of the keyword arguments of [Event(...)]. *)
Definition required_fields : list string :=
  ["time"; "title"; "description"; "visual_prompt"; "media_type"].

Definition is_mapping (v : json) : bool :=
  match v with
  | JObj _ => true
  | _ => false
  end.

(** What a template must hold for the loop body to produce [e]: under
    each required key a value that validates to the field of [e], and a
    [media_url] (the empty string when missing) that validates too. *)
Definition event_from_template {V : Pydantic} (event_template : json)
    (e : Event) : Prop :=
  exists t x1 x2 x3 x4 x5,
    event_template = JObj t
    /\ dict_get t "time" = Some x1 /\ validate_str x1 = Some (time e)
    /\ dict_get t "title" = Some x2 /\ validate_str x2 = Some (title e)
    /\ dict_get t "description" = Some x3
    /\ validate_str x3 = Some (description e)
    /\ dict_get t "visual_prompt" = Some x4
    /\ validate_str x4 = Some (visual_prompt e)
    /\ dict_get t "media_type" = Some x5
    /\ validate_str x5 = Some (media_type e)
    /\ validate_str (default (JStr "") (dict_get t "media_url"))
       = Some (media_url e).

(** The answer of [POST /quiz/submit] for a caller and a profile. *)
Definition quiz_response (p : PersonalityProfile) (user : string) : json :=
  JObj [("message", JStr "Quiz submitted successfully");
        ("profile", PersonalityProfile_dict p);
        ("user", JStr user)].

(** A document whose personas are malformed in the ways the handlers
    meet: a record that is a list, "trends" that is [null], templates
    that are not a list. *)
Definition odd_doc : json :=
  JObj [("listed", JArr [JInt 1]);
        ("nulltrends", JObj [("trends", JNull)]);
        ("notemplates", JObj [("events_template", JNull)]);
        ("texttemplates", JObj [("events_template", JStr "ab")]);
        ("blanktemplates", JObj [("events_template", JStr "")]);
        ("second", JObj [("events_template",
            JArr [JObj [("time", JStr "09:00"); ("title", JStr "Stand-up");
                        ("description", JStr "Daily sync");
                        ("visual_prompt", JStr "team at a board");
                        ("media_type", JStr "image")];
                  JObj [("time", JStr "10:00");
                        ("description", JStr "no title")];
                  JInt 3])])].

Definition odd_state : AppState := startup (Some odd_doc) sample_source.


Lemma positive_answers_count l :
  positive_answers l = Z.of_nat (count_gt3 l).
Proof.
  unfold count_gt3.
  induction l as [|q l IH]; [reflexivity|].
  cbn [positive_answers List.filter].
  destruct (3 <? answer q)%Z; cbn [length]; rewrite IH; lia.
Qed.

Lemma exceeds_half_spec (count : Z) (len : nat) :
  exceeds_half count len = (Z.of_nat len <? 2 * count)%Z.
Proof.
  unfold exceeds_half, Qle_bool, Qdiv, Qmult, Qinv, inject_Z.
  cbn [Qnum Qden].
  destruct (Z.leb_spec (count * Z.pos (1 * 2)) (Z.of_nat len * 1 * 1));
    destruct (Z.ltb_spec (Z.of_nat len) (2 * count)); cbn; try reflexivity; lia.
Qed.

(** C1: the classifier counts the answers strictly greater than 3 and
    returns profile A exactly when that count exceeds half the number of
    answers, profile B otherwise; the empty submission yields profile B. *)
Theorem classify_personality_majority :
  (forall q : QuizSubmission,
      classify_personality q =
      if (Z.of_nat (length (answers q)) <? 2 * Z.of_nat (count_gt3 (answers q)))%Z
      then profile_A else profile_B)
  /\ classify_personality {| answers := [] |} = profile_B
  /\ MBTI profile_A = "ESTJ" /\ MBTI profile_B = "INFP".
Proof.
  split; [|repeat split].
  intros q. unfold classify_personality.
  rewrite exceeds_half_spec, positive_answers_count.
  destruct (_ <? _)%Z; reflexivity.
Qed.

(** ** The handler monad *)

Ltac unfold_monad :=
  unfold mbind, mret, M_bind, M_ret, result_bind, result_ret, bind, ret,
    raise, lift, read_users_db, read_combined_mock_data in *.

Lemma same_tables_refl st : same_tables st st.
Proof. split; reflexivity. Qed.

Lemma same_tables_trans st1 st2 st3 :
  same_tables st1 st2 -> same_tables st2 st3 -> same_tables st1 st3.
Proof. intros [H1 H2] [H3 H4]. split; congruence. Qed.

Lemma read_only_ret {A} (a : A) : read_only (mret a).
Proof. intros st. apply same_tables_refl. Qed.

Lemma read_only_raise {A} (e : exn) : read_only (@raise A e).
Proof. intros st. apply same_tables_refl. Qed.

Lemma read_only_lift {A} (r : result A) : read_only (lift r).
Proof. intros st. apply same_tables_refl. Qed.

Lemma read_only_read_users_db : read_only read_users_db.
Proof. intros st. apply same_tables_refl. Qed.

Lemma read_only_read_combined_mock_data : read_only read_combined_mock_data.
Proof. intros st. apply same_tables_refl. Qed.

Lemma read_only_uuid4_str : read_only uuid4_str.
Proof. intros st. split; reflexivity. Qed.

Lemma read_only_bind {A B} (m : M A) (k : A -> M B) :
  read_only m -> (forall a, read_only (k a)) -> read_only (m ≫= k).
Proof.
  intros Hm Hk st. unfold_monad.
  specialize (Hm st). destruct (m st) as [[a|e] st']; cbn in *.
  - eapply same_tables_trans; [exact Hm | apply Hk].
  - exact Hm.
Qed.

Lemma read_only_if {A} (b : bool) (m1 m2 : M A) :
  read_only m1 -> read_only m2 -> read_only (if b then m1 else m2).
Proof. destruct b; auto. Qed.

Create HintDb readonly.
#[export] Hint Resolve read_only_ret read_only_raise read_only_lift
  read_only_read_users_db read_only_read_combined_mock_data
  read_only_uuid4_str read_only_if : readonly.

Ltac read_only_step :=
  first [ apply read_only_bind; [|intros ?]
        | apply read_only_if
        | match goal with |- read_only (match ?x with _ => _ end) => destruct x end
        | solve [auto with readonly] ].

Lemma read_only_get_user name : read_only (get_user name).
Proof. unfold get_user. repeat read_only_step. Qed.

Lemma read_only_authenticate_user name password :
  read_only (authenticate_user name password).
Proof.
  unfold authenticate_user.
  apply read_only_bind; [apply read_only_get_user|intros [u|]];
    repeat read_only_step.
Qed.

Lemma read_only_get_current_user token : read_only (get_current_user token).
Proof.
  unfold get_current_user.
  apply read_only_bind; [apply read_only_get_user|intros [u|]];
    repeat read_only_step.
Qed.

Lemma read_only_Depends {A} token (body : UserInDB -> M A) :
  (forall u, read_only (body u)) ->
  read_only (Depends_get_current_user token body).
Proof.
  intros Hb. unfold Depends_get_current_user.
  apply read_only_bind; [apply read_only_get_current_user|exact Hb].
Qed.

Lemma read_only_login name password :
  read_only (login_for_access_token name password).
Proof.
  unfold login_for_access_token.
  apply read_only_bind; [apply read_only_authenticate_user|intros [u|]];
    repeat read_only_step.
Qed.

Lemma read_only_get_career_trends' career metric :
  read_only (get_career_trends' career metric).
Proof. unfold get_career_trends'. repeat read_only_step. Qed.

Lemma read_only_simulate_career `{V : Pydantic} person_id params :
  read_only (simulate_career person_id params).
Proof. unfold simulate_career. repeat read_only_step. Qed.

Lemma read_only_dispatch (table : list Route) (r : Request) :
  Forall (fun rt => forall r', read_only (route_endpoint rt r')) table ->
  read_only (dispatch table r).
Proof.
  intros Htable. unfold dispatch.
  destruct (List.find (full_match r) table) as [rt|] eqn:Hfind.
  - apply List.find_some in Hfind as [Hin _].
    rewrite List.Forall_forall in Htable. apply Htable, Hin.
  - destruct (List.find (path_match r) table); auto with readonly.
Qed.

Lemma read_only_routes `{V : Pydantic} :
  Forall (fun rt => forall r', read_only (route_endpoint rt r')) routes.
Proof.
  unfold routes.
  repeat first [apply Forall_nil_2 | apply Forall_cons_2]; intros r'; cbn.
  - apply read_only_login.
  - apply read_only_ret.
  - apply read_only_Depends; intros u; apply read_only_ret.
  - apply read_only_Depends; intros u; apply read_only_ret.
  - apply read_only_Depends; intros u; apply read_only_ret.
  - apply read_only_Depends; intros u; apply read_only_ret.
  - apply read_only_get_career_trends'.
  - apply read_only_ret.
  - apply read_only_bind; [apply read_only_simulate_career|].
    intros resp; apply read_only_ret.
Qed.

Lemma read_only_app `{V : Pydantic} (r : Request) : read_only (app r).
Proof. apply read_only_dispatch, read_only_routes. Qed.

(** C8: whatever requests the process serves after startup, and whether
    they are answered or fail, [users_db] and [combined_mock_data] are the
    ones the module initialisation built. *)
Theorem tables_read_only `{V : Pydantic} :
  (forall (r : Request) (st : AppState), same_tables st (app r st).2)
  /\ (forall (rs : list Request) (st : AppState), same_tables st (serve rs st))
  /\ (forall (rs : list Request) (file : option json) (source : nat -> string),
        users_db (serve rs (startup file source)) = seed_users_db
        /\ combined_mock_data (serve rs (startup file source))
           = load_combined_mock_data file).
Proof.
  assert (Hserve : forall rs st, same_tables st (serve rs st)).
  { induction rs as [|r rs IH]; intros st; cbn [serve].
    - apply same_tables_refl.
    - eapply same_tables_trans; [apply read_only_app | apply IH]. }
  split; [intros r st; apply read_only_app|].
  split; [exact Hserve|].
  intros rs file source. apply (Hserve rs (startup file source)).
Qed.

(** ** Auth stub *)

Lemma seed_users_db_keys : keys_are_usernames seed_users_db.
Proof.
  intros k u. unfold seed_users_db.
  rewrite lookup_singleton_Some. intros [<- <-]. reflexivity.
Qed.

Lemma authenticate_user_run (st : AppState) (name password : string) :
  authenticate_user name password st =
  (Return (match users_db st !! name with
           | Some u =>
               if String.eqb password (hashed_password u) then Some u else None
           | None => None
           end), st).
Proof.
  unfold authenticate_user, get_user, verify_password. unfold_monad.
  destruct (users_db st !! name) as [u|]; [|reflexivity].
  destruct (String.eqb password (hashed_password u)); reflexivity.
Qed.

Lemma get_current_user_run (st : AppState) (token : string) :
  get_current_user token st =
  (match users_db st !! token with
   | Some u => Return u
   | None => Raise (unauthorized "Invalid authentication credentials")
   end, st).
Proof.
  unfold get_current_user, get_user. unfold_monad.
  destruct (users_db st !! token); reflexivity.
Qed.

Lemma Depends_get_current_user_run {A} (st : AppState) (token : string)
    (body : UserInDB -> M A) :
  Depends_get_current_user token body st =
  match users_db st !! token with
  | Some u => body u st
  | None => (Raise (unauthorized "Invalid authentication credentials"), st)
  end.
Proof.
  unfold Depends_get_current_user. unfold mbind, M_bind, bind.
  rewrite get_current_user_run.
  destruct (users_db st !! token); reflexivity.
Qed.

(** C2: login succeeds exactly on a user name of the table given with the
    stored [hashed_password]; the token handed back is then the user name;
    every other pair gets one and the same 401, whichever part was wrong. *)
Theorem login_for_access_token_contract (st : AppState)
    (name password : string) :
  keys_are_usernames (users_db st) ->
  (credentials_ok (users_db st) name password ->
   login_for_access_token name password st =
   (Return (JObj [("access_token", JStr name);
                  ("token_type", JStr "bearer")]), st))
  /\ (~ credentials_ok (users_db st) name password ->
      login_for_access_token name password st =
      (Raise (unauthorized "Incorrect username or password"), st))
  /\ (forall resp st',
        login_for_access_token name password st = (Return resp, st') ->
        credentials_ok (users_db st) name password).
Proof.
  intros Hkeys.
  assert (Hrun : login_for_access_token name password st =
    match users_db st !! name with
    | Some u =>
        if String.eqb password (hashed_password u)
        then (Return (JObj [("access_token", JStr (username u));
                            ("token_type", JStr "bearer")]), st)
        else (Raise (unauthorized "Incorrect username or password"), st)
    | None => (Raise (unauthorized "Incorrect username or password"), st)
    end).
  { unfold login_for_access_token. unfold mbind, M_bind, bind.
    rewrite authenticate_user_run.
    destruct (users_db st !! name) as [u|]; [|reflexivity].
    destruct (String.eqb password (hashed_password u)); reflexivity. }
  rewrite Hrun. clear Hrun.
  destruct (users_db st !! name) as [u|] eqn:Hu.
  - destruct (String.eqb_spec password (hashed_password u)) as [Hp|Hp].
    + rewrite (Hkeys _ _ Hu). split; [reflexivity|]. split.
      * intros Hno. exfalso. apply Hno. exists u. auto.
      * intros resp st' _. exists u. auto.
    + split; [|split].
      * intros (u' & Hu' & Hp'). congruence.
      * reflexivity.
      * intros resp st' H. discriminate H.
  - split; [|split].
    + intros (u' & Hu' & _). congruence.
    + reflexivity.
    + intros resp st' H. discriminate H.
Qed.

(** The seeded pair logs in and gets its own name as the token. *)
Lemma login_for_access_token_contract_witness :
  keys_are_usernames (users_db sample_state)
  /\ login_for_access_token "testuser" "fakehashedpassword" sample_state =
     (Return (JObj [("access_token", JStr "testuser");
                    ("token_type", JStr "bearer")]), sample_state).
Proof.
  split; [exact seed_users_db_keys|].
  apply (login_for_access_token_contract sample_state "testuser"
           "fakehashedpassword" seed_users_db_keys).
  exists {| username := "testuser"; email := Some "test@example.com";
            disabled := Some false;
            hashed_password := "fakehashedpassword" |}.
  split; reflexivity.
Defined.

(** C5: with a bearer token that is no user name of the table, the
    dependency raises 401 before any handler body is entered (whatever the
    body, the outcome is the same), and so does each protected path. *)
Theorem protected_endpoints_unauthorized `{V : Pydantic} (st : AppState)
    (token : string) :
  users_db st !! token = None ->
  (forall A (body : UserInDB -> M A),
      Depends_get_current_user token body st =
      (Raise (unauthorized "Invalid authentication credentials"), st))
  /\ (forall r : Request,
        req_token r = token ->
        In (req_method r, req_path r) protected_paths ->
        app r st =
        (Raise (unauthorized "Invalid authentication credentials"), st)).
Proof.
  intros Hnone. split.
  - intros A body. rewrite Depends_get_current_user_run, Hnone. reflexivity.
  - intros [m p tok fu fp q pr c me pid sp] Htok Hin. cbn in Htok, Hin. subst tok.
    unfold app, dispatch, full_match.
    destruct Hin as [H|[H|[H|[H|[]]]]]; inversion H; subst m p; cbn;
      unfold submit_quiz, get_career_recommendations, get_career_trends,
        generate_simulation;
      rewrite Depends_get_current_user_run, Hnone; reflexivity.
Qed.

Lemma protected_endpoints_unauthorized_witness :
  users_db sample_state !! "mallory" = None
  /\ app (V := strict_pydantic)
         (sample_request POST "/quiz/submit" "mallory") sample_state =
     (Raise (unauthorized "Invalid authentication credentials"), sample_state).
Proof.
  split; [reflexivity|].
  apply (protected_endpoints_unauthorized (V := strict_pydantic)
           sample_state "mallory" eq_refl).
  - reflexivity.
  - left. reflexivity.
Defined.

(** ** Routing of [GET /] *)

(** C6 as stated fails: a [GET /] request is not answered with the message
    of the handler defined later; it is answered by the one registered
    first. *)
Lemma root_later_definition_not_served :
  app (V := strict_pydantic) (sample_request GET "/" "") sample_state =
  (Return (JObj [("message", JStr "Welcome to Career Compass API")]),
   sample_state)
  /\ (app (V := strict_pydantic) (sample_request GET "/" "") sample_state).1
     <> Return (JObj [("message", JStr "Welcome to the Career Trends API")]).
Proof. split; [reflexivity|]. cbn. discriminate. Qed.

(** C6, amended: [GET /] is registered twice, by [read_root] and then by
    the later [read_root'], and the first registration serves every
    [GET /] request: the answer is "Welcome to Career Compass API". *)
Theorem root_first_definition_served `{V : Pydantic} (r : Request)
    (st : AppState) :
  req_method r = GET ->
  req_path r = "/" ->
  map (fun rt => route_endpoint rt r st) (List.filter (full_match r) routes)
  = [read_root st; read_root' st]
  /\ app r st =
     (Return (JObj [("message", JStr "Welcome to Career Compass API")]), st).
Proof.
  destruct r as [m p tok fu fp q pr c me pid sp]. cbn [req_method req_path].
  intros -> ->. split; reflexivity.
Qed.

Lemma root_first_definition_served_witness :
  app (V := strict_pydantic) (sample_request GET "/" "testuser") sample_state =
  (Return (JObj [("message", JStr "Welcome to Career Compass API")]),
   sample_state).
Proof.
  apply (root_first_definition_served (V := strict_pydantic)
           (sample_request GET "/" "testuser") sample_state eq_refl eq_refl).
Defined.

(** ** Static providers *)

(** C7: on each static provider, two calls by authenticated callers are
    answered alike whatever else the requests carry (the
    [PersonalityProfile] body of [/careers/recommend] included) and
    whatever the mock document holds: both succeed, and the two responses
    are equal once the ["user"] entry is taken out. *)
Theorem static_providers_ignore_input `{V : Pydantic} (r1 r2 : Request)
    (st1 st2 : AppState) (u1 u2 : UserInDB) :
  users_db st1 !! req_token r1 = Some u1 ->
  users_db st2 !! req_token r2 = Some u2 ->
  (req_method r2, req_path r2) = (req_method r1, req_path r1) ->
  In (req_method r1, req_path r1)
     [(GET, "/careers/recommend"); (GET, "/careers/trends");
      (POST, "/simulation/generate")] ->
  exists resp1 resp2,
    app r1 st1 = (Return resp1, st1)
    /\ app r2 st2 = (Return resp2, st2)
    /\ without_user resp1 = without_user resp2
    /\ (dict_has (match resp1 with JObj d => d | _ => [] end) "user" = false ->
        resp1 = resp2).
Proof.
  destruct r1 as [m1 p1 tok1 fu1 fp1 q1 pr1 c1 me1 pid1 sp1].
  destruct r2 as [m2 p2 tok2 fu2 fp2 q2 pr2 c2 me2 pid2 sp2].
  cbn [req_method req_path req_token].
  intros Hu1 Hu2 Heq Hin. inversion Heq; subst m2 p2.
  unfold app, dispatch, full_match.
  destruct Hin as [H|[H|[H|[]]]]; inversion H; subst m1 p1; cbn;
    unfold get_career_recommendations, get_career_trends, generate_simulation;
    rewrite !Depends_get_current_user_run, Hu1, Hu2;
    eexists _, _; (split; [reflexivity|]); (split; [reflexivity|]);
    (split; [reflexivity|]); cbn; first [discriminate | reflexivity].
Qed.

Lemma static_providers_ignore_input_witness :
  exists resp1 resp2,
    app (V := strict_pydantic)
        (sample_request GET "/careers/recommend" "testuser") sample_state
    = (Return resp1, sample_state)
    /\ app (V := strict_pydantic)
           {| req_method := GET; req_path := "/careers/recommend";
              req_token := "testuser"; req_form_username := "";
              req_form_password := "";
              req_quiz_submission := {| answers := [] |};
              req_profile := profile_A;
              req_career := ""; req_metric := ""; req_person_id := "";
              req_scenario_params := Some [] |}
           (startup None sample_source)
       = (Return resp2, startup None sample_source)
    /\ without_user resp1 = without_user resp2.
Proof.
  destruct (static_providers_ignore_input (V := strict_pydantic)
              (sample_request GET "/careers/recommend" "testuser")
              {| req_method := GET; req_path := "/careers/recommend";
                 req_token := "testuser"; req_form_username := "";
                 req_form_password := "";
                 req_quiz_submission := {| answers := [] |};
                 req_profile := profile_A;
                 req_career := ""; req_metric := ""; req_person_id := "";
                 req_scenario_params := Some [] |}
              sample_state (startup None sample_source)
              _ _ eq_refl eq_refl eq_refl (or_introl eq_refl))
    as (resp1 & resp2 & H1 & H2 & H3 & _).
  exists resp1, resp2. auto.
Defined.

(** ** [GET /api/trends] *)

Ltac run_trends Hdata :=
  unfold get_career_trends'; unfold_monad; rewrite Hdata; cbn [py_get default from_option id].

Lemma truthy_JObj (c : dict json) : c <> [] -> truthy (JObj c) = true.
Proof. destruct c; [congruence|reflexivity]. Qed.

Lemma dict_get_Some_nonempty {A} (d : dict A) k v :
  dict_get d k = Some v -> d <> [].
Proof. destruct d; [discriminate|congruence]. Qed.

Lemma trends_career_falsy (st : AppState) (d : dict json)
    (career metric : string) :
  combined_mock_data st = JObj d ->
  truthy (default JNull (dict_get d career)) = false ->
  get_career_trends' career metric st =
  (Raise (not_found "Career not found"), st).
Proof. intros Hdata Hfalsy. run_trends Hdata. rewrite Hfalsy. reflexivity. Qed.

Lemma trends_metric_falsy (st : AppState) (d c t : dict json)
    (career metric : string) :
  combined_mock_data st = JObj d ->
  dict_get d career = Some (JObj c) ->
  c <> [] ->
  default (JObj []) (dict_get c "trends") = JObj t ->
  truthy (default JNull (dict_get t metric)) = false ->
  get_career_trends' career metric st = (Raise (metric_not_found metric), st).
Proof.
  intros Hdata Hc Hne Ht Hfalsy. run_trends Hdata. rewrite Hc. cbn [default from_option id].
  rewrite (truthy_JObj c Hne). cbn [negb py_get].
  rewrite Ht. cbn [py_get]. rewrite Hfalsy. reflexivity.
Qed.

Lemma trends_metric_truthy (st : AppState) (d c t : dict json)
    (career metric : string) (v : json) :
  combined_mock_data st = JObj d ->
  dict_get d career = Some (JObj c) ->
  dict_get c "trends" = Some (JObj t) ->
  dict_get t metric = Some v ->
  truthy v = true ->
  get_career_trends' career metric st =
  (Return (trends_response career metric v), st).
Proof.
  intros Hdata Hc Ht Hv Htruthy. run_trends Hdata. rewrite Hc. cbn [default from_option id].
  rewrite (truthy_JObj c (dict_get_Some_nonempty _ _ _ Ht)).
  cbn [negb py_get]. rewrite Ht. cbn [py_get default from_option id]. rewrite Hv.
  cbn [default from_option id]. rewrite Htruthy. reflexivity.
Qed.

(** C3 as stated fails: a metric key that is present in the "trends"
    sub-mapping of a present career, but holds an empty list, is answered
    with the metric-not-found 404 and not with the stored data; and a
    career key that is present with an empty record is answered with the
    career-not-found 404, not with the metric-not-found one. *)
Lemma trends_present_metric_not_returned :
  (exists c t,
      dict_get (match sample_doc with JObj d => d | _ => [] end) "swe"
      = Some (JObj c)
      /\ dict_get c "trends" = Some (JObj t)
      /\ dict_get t "openings" = Some (JArr []))
  /\ get_career_trends' "swe" "openings" sample_state =
     (Raise (metric_not_found "openings"), sample_state)
  /\ get_career_trends' "swe" "openings" sample_state <>
     (Return (trends_response "swe" "openings" (JArr [])), sample_state)
  /\ dict_get (match sample_doc with JObj d => d | _ => [] end) "vacant"
     = Some (JObj [])
  /\ get_career_trends' "vacant" "salary" sample_state =
     (Raise (not_found "Career not found"), sample_state).
Proof.
  split; [|split; [|split; [|split]]]; try reflexivity.
  - eexists _, _. repeat split; reflexivity.
  - cbn. discriminate.
Qed.

(** C3, amended: with the mock document a mapping, an absent career key
    gets the career-not-found 404; a career that maps to a non-empty
    mapping whose "trends" entry is missing, or is a mapping without the
    metric key, gets the metric-not-found 404, whose detail differs from
    the former; a metric key that holds a truthy value gets that value
    back together with the insight string built from career and metric. *)
Theorem api_trends_lookup (st : AppState) (d : dict json)
    (career metric : string) :
  combined_mock_data st = JObj d ->
  (dict_get d career = None ->
   get_career_trends' career metric st =
   (Raise (not_found "Career not found"), st))
  /\ (forall c,
        dict_get d career = Some (JObj c) -> c <> [] ->
        dict_get c "trends" = None
        \/ (exists t, dict_get c "trends" = Some (JObj t)
                      /\ dict_get t metric = None) ->
        get_career_trends' career metric st =
        (Raise (metric_not_found metric), st))
  /\ metric_not_found metric <> not_found "Career not found"
  /\ (forall c t v,
        dict_get d career = Some (JObj c) ->
        dict_get c "trends" = Some (JObj t) ->
        dict_get t metric = Some v ->
        truthy v = true ->
        get_career_trends' career metric st =
        (Return (trends_response career metric v), st)).
Proof.
  intros Hdata. split; [|split; [|split]].
  - intros Hnone. apply (trends_career_falsy st d); [exact Hdata|].
    rewrite Hnone. reflexivity.
  - intros c Hc Hne [Hnone|(t & Ht & Hm)].
    + apply (trends_metric_falsy st d c []); auto.
      rewrite Hnone. reflexivity.
    + apply (trends_metric_falsy st d c t); auto.
      * rewrite Ht. reflexivity.
      * rewrite Hm. reflexivity.
  - unfold metric_not_found, not_found. cbn. intros H. discriminate H.
  - intros c t v Hc Ht Hv Htruthy.
    apply (trends_metric_truthy st d c t); assumption.
Qed.

Lemma api_trends_lookup_witness :
  get_career_trends' "nurse" "salary" sample_state =
  (Raise (not_found "Career not found"), sample_state)
  /\ get_career_trends' "intern" "salary" sample_state =
     (Raise (metric_not_found "salary"), sample_state)
  /\ get_career_trends' "swe" "salary" sample_state =
     (Return (trends_response "swe" "salary" (JArr [JInt 100; JInt 120])),
      sample_state).
Proof.
  pose proof (api_trends_lookup sample_state _ "nurse" "salary" eq_refl)
    as (H1 & _).
  pose proof (api_trends_lookup sample_state _ "intern" "salary" eq_refl)
    as (_ & H2 & _).
  pose proof (api_trends_lookup sample_state _ "swe" "salary" eq_refl)
    as (_ & _ & _ & H3).
  split; [apply H1; reflexivity|]. split.
  - apply (H2 [("trends", JObj [])]); [reflexivity|discriminate|].
    right. exists []. split; reflexivity.
  - eapply H3; reflexivity.
Defined.

(** C9: [GET /api/trends] tests truth values, not key presence: a career
    key that is present with a falsy value gets the career-not-found 404,
    and a metric key that is present in the "trends" sub-mapping with a
    falsy value gets the metric-not-found 404. *)
Theorem api_trends_truthiness (st : AppState) (d : dict json)
    (career metric : string) :
  combined_mock_data st = JObj d ->
  (forall v,
      dict_get d career = Some v -> truthy v = false ->
      get_career_trends' career metric st =
      (Raise (not_found "Career not found"), st))
  /\ (forall c t v,
        dict_get d career = Some (JObj c) ->
        dict_get c "trends" = Some (JObj t) ->
        dict_get t metric = Some v -> truthy v = false ->
        get_career_trends' career metric st =
        (Raise (metric_not_found metric), st)).
Proof.
  intros Hdata. split.
  - intros v Hv Hfalsy. apply (trends_career_falsy st d); [exact Hdata|].
    rewrite Hv. exact Hfalsy.
  - intros c t v Hc Ht Hv Hfalsy.
    apply (trends_metric_falsy st d c t); auto.
    + eapply dict_get_Some_nonempty, Ht.
    + rewrite Ht. reflexivity.
    + rewrite Hv. exact Hfalsy.
Qed.

Lemma api_trends_truthiness_witness :
  get_career_trends' "vacant" "salary" sample_state =
  (Raise (not_found "Career not found"), sample_state)
  /\ get_career_trends' "swe" "openings" sample_state =
     (Raise (metric_not_found "openings"), sample_state).
Proof.
  pose proof (api_trends_truthiness sample_state _ "vacant" "salary" eq_refl)
    as (H1 & _).
  pose proof (api_trends_truthiness sample_state _ "swe" "openings" eq_refl)
    as (_ & H2).
  split.
  - apply (H1 (JObj [])); reflexivity.
  - eapply H2; reflexivity.
Defined.

(** ** [GET /simulate] *)

Section SimulateProofs.
Context {V : Pydantic}.

Lemma event_of_template_copies (event_template : json) (e : Event) :
  copies_template event_template e ->
  event_of_template event_template = Return e.
Proof.
  intros (t & Heq & Htime & Htitle & Hdesc & Hvp & Hmt & Hmu).
  subst event_template.
  unfold event_of_template, Event_init. unfold_monad.
  cbn [py_get py_getitem].
  rewrite Htime, Htitle, Hdesc, Hvp, Hmt.
  destruct e as [ti tt de vp mt mu]; cbn in *.
  destruct Hmu as [[Hmu Hempty]|Hmu]; rewrite Hmu; try subst mu;
    cbn [default from_option id]; rewrite !validate_str_JStr; reflexivity.
Qed.

Lemma simulate_loop_copies (templates : list json) (evs acc : list Event) :
  Forall2 copies_template templates evs ->
  simulate_loop templates acc = Return (acc ++ evs).
Proof.
  intros H. revert acc.
  induction H as [|t e ts es Hte _ IH]; intros acc; cbn [simulate_loop].
  - rewrite app_nil_r. reflexivity.
  - rewrite (event_of_template_copies t e Hte). unfold_monad.
    rewrite IH, <- app_assoc. reflexivity.
Qed.

Lemma simulate_career_falsy (st : AppState) (d : dict json)
    (pid : string) (sp : option (dict json)) :
  combined_mock_data st = JObj d ->
  truthy (default JNull (dict_get d pid)) = false ->
  simulate_career pid sp st = (Raise (not_found "Persona not found"), st).
Proof.
  intros Hdata Hfalsy. unfold simulate_career. unfold_monad.
  rewrite Hdata. cbn [py_get]. rewrite Hfalsy. reflexivity.
Qed.

Lemma simulate_career_copies (st : AppState) (d p : dict json)
    (pid : string) (sp : option (dict json)) (ts : list json)
    (evs : list Event) :
  combined_mock_data st = JObj d ->
  dict_get d pid = Some (JObj p) ->
  p <> [] ->
  default (JArr []) (dict_get p "events_template") = JArr ts ->
  Forall2 copies_template ts evs ->
  simulate_career pid sp st =
  (Return {| session_id := uuid_source st (uuid_drawn st);
             person_id := pid;
             timeline := evs |}, after_draw st).
Proof.
  intros Hdata Hp Hne Hts Hcopies. unfold simulate_career. unfold_monad.
  rewrite Hdata. cbn [py_get]. rewrite Hp. cbn [default from_option id].
  rewrite (truthy_JObj p Hne). cbn [negb uuid4_str py_get].
  rewrite Hts. cbn [py_iter].
  rewrite (simulate_loop_copies ts evs [] Hcopies). reflexivity.
Qed.

(** Whenever the handler returns, the identifier is the one drawn by
    this call and the source has moved on by one. *)
Lemma simulate_career_returns (st st' : AppState) (pid : string)
    (sp : option (dict json)) (resp : TimelineResponse) :
  simulate_career pid sp st = (Return resp, st') ->
  session_id resp = uuid_source st (uuid_drawn st)
  /\ person_id resp = pid
  /\ st' = after_draw st.
Proof.
  unfold simulate_career. unfold_monad.
  destruct (py_get (combined_mock_data st) pid JNull) as [persona|];
    [|discriminate].
  destruct (truthy persona); cbn [negb uuid4_str]; [|discriminate].
  destruct (py_get persona "events_template" (JArr [])) as [tobj|];
    [|discriminate].
  destruct (py_iter tobj) as [ts|]; [|discriminate].
  destruct (simulate_loop ts []) as [evs|]; [|discriminate].
  intros H. inversion H. subst. cbn. auto.
Qed.

End SimulateProofs.

(** C4 as stated fails: a person key that is present with an empty record
    is answered 404, and a template that lacks one of the five required
    fields makes the handler raise [KeyError] instead of returning a
    timeline. *)
Lemma simulate_present_key_no_timeline :
  dict_has (match sample_doc with JObj d => d | _ => [] end) "vacant" = true
  /\ simulate_career (V := strict_pydantic) "vacant" None sample_state =
     (Raise (not_found "Persona not found"), sample_state)
  /\ dict_has (match sample_doc with JObj d => d | _ => [] end) "draft" = true
  /\ simulate_career (V := strict_pydantic) "draft" None sample_state =
     (Raise (KeyError "title"), after_draw sample_state).
Proof. repeat split; reflexivity. Qed.

(** C4, amended: with the mock document a mapping, a person key that is
    absent, or present with a falsy value, gets the 404; a person key that
    maps to a non-empty mapping whose "events_template" entry (the empty
    list when missing) is a list of templates, each a mapping with the
    five required fields as strings and, if present, a string
    [media_url], gets a [TimelineResponse] with the identifier drawn by
    this call, the given [person_id], and one [Event] per template, in
    order, each copying its template with [media_url] defaulting to the
    empty string. *)
Theorem simulate_career_timeline `{V : Pydantic} (st : AppState)
    (d : dict json) (pid : string) (sp : option (dict json)) :
  combined_mock_data st = JObj d ->
  (dict_get d pid = None ->
   simulate_career pid sp st = (Raise (not_found "Persona not found"), st))
  /\ (forall v,
        dict_get d pid = Some v -> truthy v = false ->
        simulate_career pid sp st =
        (Raise (not_found "Persona not found"), st))
  /\ (forall p ts evs,
        dict_get d pid = Some (JObj p) -> p <> [] ->
        default (JArr []) (dict_get p "events_template") = JArr ts ->
        Forall2 copies_template ts evs ->
        simulate_career pid sp st =
        (Return {| session_id := uuid_source st (uuid_drawn st);
                   person_id := pid;
                   timeline := evs |}, after_draw st)
        /\ length evs = length ts).
Proof.
  intros Hdata. split; [|split].
  - intros Hnone. apply (simulate_career_falsy st d); [exact Hdata|].
    rewrite Hnone. reflexivity.
  - intros v Hv Hfalsy. apply (simulate_career_falsy st d); [exact Hdata|].
    rewrite Hv. exact Hfalsy.
  - intros p ts evs Hp Hne Hts Hcopies. split.
    + apply (simulate_career_copies st d p pid sp ts evs); assumption.
    + symmetry. exact (Forall2_length _ _ _ Hcopies).
Qed.

Lemma simulate_career_timeline_witness :
  simulate_career (V := strict_pydantic) "nurse" None sample_state =
  (Raise (not_found "Persona not found"), sample_state)
  /\ simulate_career (V := strict_pydantic) "swe" None sample_state =
     (Return {| session_id := "3f2b8c1e-0000-4000-8000-000000000000";
                person_id := "swe";
                timeline :=
                  [ {| time := "09:00"; title := "Stand-up";
                       description := "Daily sync";
                       visual_prompt := "team at a board";
                       media_type := "image"; media_url := "" |};
                    {| time := "14:00"; title := "Review";
                       description := "Code review";
                       visual_prompt := "two screens";
                       media_type := "video";
                       media_url := "https://cdn/r.mp4" |} ] |},
      after_draw sample_state).
Proof.
  pose proof (simulate_career_timeline (V := strict_pydantic) sample_state _
                "nurse" None eq_refl) as (H1 & _).
  pose proof (simulate_career_timeline (V := strict_pydantic) sample_state _
                "swe" None eq_refl) as (_ & _ & H2).
  split; [apply H1; reflexivity|].
  eapply H2.
  - reflexivity.
  - discriminate.
  - reflexivity.
  - repeat apply Forall2_cons_2; [| |apply Forall2_nil_2];
      eexists; cbn;
      (split; [reflexivity|]); repeat (split; [reflexivity|]).
    + left. split; reflexivity.
    + right. reflexivity.
Defined.

(** C10: a persona that is a non-empty record without an
    "events_template" key is served without error: the response carries
    the given [person_id], the identifier drawn by this call, and an
    empty timeline. *)
Theorem simulate_career_no_templates `{V : Pydantic} (st : AppState)
    (d p : dict json) (pid : string) (sp : option (dict json)) :
  combined_mock_data st = JObj d ->
  dict_get d pid = Some (JObj p) ->
  truthy (JObj p) = true ->
  dict_get p "events_template" = None ->
  simulate_career pid sp st =
  (Return {| session_id := uuid_source st (uuid_drawn st);
             person_id := pid;
             timeline := [] |}, after_draw st)
  /\ uuid_drawn (after_draw st) = S (uuid_drawn st).
Proof.
  intros Hdata Hp Htruthy Hnone. split; [|reflexivity].
  apply (simulate_career_copies st d p pid sp [] []).
  - exact Hdata.
  - exact Hp.
  - intros ->. discriminate Htruthy.
  - rewrite Hnone. reflexivity.
  - apply Forall2_nil_2.
Qed.

Lemma simulate_career_no_templates_witness :
  simulate_career (V := strict_pydantic) "intern" None sample_state =
  (Return {| session_id := "3f2b8c1e-0000-4000-8000-000000000000";
             person_id := "intern";
             timeline := [] |}, after_draw sample_state).
Proof.
  apply (simulate_career_no_templates (V := strict_pydantic) sample_state
           _ [("trends", JObj [])] "intern" None eq_refl eq_refl eq_refl
           eq_refl).
Defined.

(** With a source that never repeats itself, two calls served one after
    the other carry different session identifiers. *)
Lemma simulate_career_session_ids_differ `{V : Pydantic}
    (st st1 st2 : AppState) (pid1 pid2 : string)
    (sp1 sp2 : option (dict json)) (resp1 resp2 : TimelineResponse) :
  (forall m n, uuid_source st m = uuid_source st n -> m = n) ->
  simulate_career pid1 sp1 st = (Return resp1, st1) ->
  simulate_career pid2 sp2 st1 = (Return resp2, st2) ->
  session_id resp1 <> session_id resp2.
Proof.
  intros Hinj H1 H2.
  apply simulate_career_returns in H1 as (Hs1 & _ & ->).
  apply simulate_career_returns in H2 as (Hs2 & _ & _).
  rewrite Hs1, Hs2. cbn. intros Heq. apply Hinj in Heq. lia.
Qed.

(** ** The path operations as served *)

(** Each method and path of the table reaches the handler written under
    its decorator; the second registration of [GET /] is the only one a
    request never reaches. *)
Lemma app_path_operations `{V : Pydantic} (r : Request) (st : AppState) :
  match req_method r, req_path r with
  | POST, "/token" =>
      app r st =
      login_for_access_token (req_form_username r) (req_form_password r) st
  | GET, "/" => app r st = read_root st
  | POST, "/quiz/submit" =>
      app r st = submit_quiz (req_quiz_submission r) (req_token r) st
  | GET, "/careers/recommend" =>
      app r st = get_career_recommendations (req_profile r) (req_token r) st
  | GET, "/careers/trends" => app r st = get_career_trends (req_token r) st
  | POST, "/simulation/generate" =>
      app r st = generate_simulation (req_token r) st
  | GET, "/api/trends" =>
      app r st = get_career_trends' (req_career r) (req_metric r) st
  | GET, "/simulate" =>
      app r st =
      (resp ← simulate_career (req_person_id r) (req_scenario_params r);
       mret (TimelineResponse_dict resp)) st
  | _, _ => True
  end.
Proof.
  destruct r as [m p tok fu fp q pr c me pid sp]. cbn [req_method req_path].
  destruct m;
    repeat match goal with
           | |- context [match ?s with EmptyString => _ | String _ _ => _ end] =>
               destruct s
           | |- context [match ?a with Ascii _ _ _ _ _ _ _ _ => _ end] =>
               destruct a
           | |- context [if ?b then _ else _] => destruct b
           end; try exact I; reflexivity.
Qed.

(** ** More on the classifier *)

Lemma classify_personality_run (q : QuizSubmission) :
  classify_personality q =
  if (Z.of_nat (length (answers q)) <? 2 * positive_answers (answers q))%Z
  then profile_A else profile_B.
Proof.
  unfold classify_personality. rewrite exceeds_half_spec.
  destruct (_ <? _)%Z; reflexivity.
Qed.

Lemma profile_A_neq_B : profile_A <> profile_B.
Proof. discriminate. Qed.

Lemma classify_personality_A_iff (q : QuizSubmission) :
  classify_personality q = profile_A <->
  (Z.of_nat (length (answers q)) < 2 * positive_answers (answers q))%Z.
Proof.
  rewrite classify_personality_run.
  destruct (Z.ltb_spec (Z.of_nat (length (answers q)))
              (2 * positive_answers (answers q))) as [H|H].
  - split; auto.
  - split; [intros E; symmetry in E; destruct (profile_A_neq_B E)|lia].
Qed.

Lemma classify_personality_B_iff (q : QuizSubmission) :
  classify_personality q = profile_B <->
  (2 * positive_answers (answers q) <= Z.of_nat (length (answers q)))%Z.
Proof.
  rewrite classify_personality_run.
  destruct (Z.ltb_spec (Z.of_nat (length (answers q)))
              (2 * positive_answers (answers q))) as [H|H].
  - split; [intros E; destruct (profile_A_neq_B E)|lia].
  - split; auto.
Qed.

Lemma positive_answers_values (l : list QuizAnswer) :
  positive_answers l = positive_values (map answer l).
Proof.
  induction l as [|q l IH]; [reflexivity|].
  cbn [positive_answers positive_values map]. rewrite IH. reflexivity.
Qed.

Lemma positive_values_Permutation (zs1 zs2 : list Z) :
  Permutation zs1 zs2 -> positive_values zs1 = positive_values zs2.
Proof.
  induction 1 as [|z l1 l2 _ IH|y z l|l1 l2 l3 _ IH1 _ IH2];
    cbn [positive_values]; try lia.
Qed.

Lemma positive_answers_app (l1 l2 : list QuizAnswer) :
  positive_answers (l1 ++ l2) = (positive_answers l1 + positive_answers l2)%Z.
Proof.
  induction l1 as [|q l1 IH]; [reflexivity|].
  rewrite <- app_comm_cons. cbn [positive_answers]. rewrite IH. lia.
Qed.

Lemma positive_answers_bounds (l : list QuizAnswer) :
  (0 <= positive_answers l <= Z.of_nat (length l))%Z.
Proof.
  induction l as [|q l IH]; cbn [positive_answers length]; [lia|].
  destruct (3 <? answer q)%Z; lia.
Qed.

(** The profile depends on the answer values only, and not on their
    order: submissions whose answer values are rearrangements of each
    other, under whatever question identifiers, get the same profile. *)
Theorem classify_personality_values_only (q1 q2 : QuizSubmission) :
  Permutation (map answer (answers q1)) (map answer (answers q2)) ->
  classify_personality q1 = classify_personality q2.
Proof.
  intros Hperm. rewrite !classify_personality_run, !positive_answers_values.
  rewrite (positive_values_Permutation _ _ Hperm).
  pose proof (Permutation_length Hperm) as Hlen.
  rewrite !length_map in Hlen. rewrite Hlen. reflexivity.
Qed.

Lemma classify_personality_values_only_witness :
  classify_personality
    {| answers := [ {| question_id := "q1"; answer := 5 |};
                    {| question_id := "q2"; answer := 1 |};
                    {| question_id := "q3"; answer := 4 |} ] |}
  = classify_personality
      {| answers := [ {| question_id := "a"; answer := 4 |};
                      {| question_id := "b"; answer := 5 |};
                      {| question_id := "c"; answer := 1 |} ] |}.
Proof.
  apply classify_personality_values_only. cbn [answers map answer].
  apply perm_trans with [5; 4; 1]%Z.
  - apply perm_skip, perm_swap.
  - apply perm_swap.
Defined.

(** One more answer above 3, wherever it is put, keeps profile A; one
    more answer of 3 or less keeps profile B. *)
Theorem classify_personality_monotone (l1 l2 : list QuizAnswer)
    (q : QuizAnswer) :
  ((3 < answer q)%Z ->
   classify_personality {| answers := l1 ++ l2 |} = profile_A ->
   classify_personality {| answers := l1 ++ q :: l2 |} = profile_A)
  /\ ((answer q <= 3)%Z ->
      classify_personality {| answers := l1 ++ l2 |} = profile_B ->
      classify_personality {| answers := l1 ++ q :: l2 |} = profile_B).
Proof.
  rewrite !classify_personality_A_iff, !classify_personality_B_iff.
  cbn [answers]. rewrite !positive_answers_app, !length_app.
  cbn [positive_answers length].
  split; intros Hq H.
  - apply Z.ltb_lt in Hq. rewrite Hq. lia.
  - apply Z.ltb_ge in Hq. rewrite Hq. lia.
Qed.

Lemma classify_personality_monotone_witness :
  classify_personality
    {| answers := [ {| question_id := "q1"; answer := 5 |} ]
                  ++ {| question_id := "q2"; answer := 4 |}
                  :: [ {| question_id := "q3"; answer := 2 |};
                       {| question_id := "q4"; answer := 5 |} ] |}
  = profile_A.
Proof.
  apply (classify_personality_monotone
           [ {| question_id := "q1"; answer := 5 |} ]
           [ {| question_id := "q3"; answer := 2 |};
             {| question_id := "q4"; answer := 5 |} ]
           {| question_id := "q2"; answer := 4 |});
    [cbn; lia | reflexivity].
Defined.

(** A tie goes to profile B: with exactly half of the answers above 3
    the profile is B.  A non-empty submission with every answer above 3
    gets A, and one with no answer above 3 gets B. *)
Theorem classify_personality_tie_and_unanimity (q : QuizSubmission) :
  ((2 * Z.of_nat (count_gt3 (answers q)) = Z.of_nat (length (answers q)))%Z ->
   classify_personality q = profile_B)
  /\ (answers q <> [] ->
      Forall (fun a => (3 < answer a)%Z) (answers q) ->
      classify_personality q = profile_A)
  /\ (Forall (fun a => (answer a <= 3)%Z) (answers q) ->
      classify_personality q = profile_B).
Proof.
  rewrite classify_personality_A_iff, classify_personality_B_iff.
  destruct q as [l]. cbn [answers]. split; [|split].
  - rewrite positive_answers_count. lia.
  - intros Hne Hall.
    assert (positive_answers l = Z.of_nat (length l)) as ->.
    { clear Hne. induction Hall as [|a l Ha _ IH]; [reflexivity|].
      cbn [positive_answers length]. apply Z.ltb_lt in Ha. rewrite Ha, IH.
      lia. }
    destruct l; [congruence|]. cbn [length]. lia.
  - intros Hall.
    assert (positive_answers l = 0%Z) as ->.
    { induction Hall as [|a l Ha _ IH]; [reflexivity|].
      cbn [positive_answers]. apply Z.ltb_ge in Ha. rewrite Ha, IH.
      reflexivity. }
    lia.
Qed.

Lemma classify_personality_tie_and_unanimity_witness :
  classify_personality
    {| answers := [ {| question_id := "q1"; answer := 5 |};
                    {| question_id := "q2"; answer := 2 |} ] |} = profile_B
  /\ classify_personality
       {| answers := [ {| question_id := "q1"; answer := 4 |} ] |} = profile_A.
Proof.
  split.
  - apply (proj1 (classify_personality_tie_and_unanimity
             {| answers := [ {| question_id := "q1"; answer := 5 |};
                             {| question_id := "q2"; answer := 2 |} ] |})).
    reflexivity.
  - apply (proj1 (proj2 (classify_personality_tie_and_unanimity
             {| answers := [ {| question_id := "q1"; answer := 4 |} ] |}))).
    + discriminate.
    + repeat constructor.
Defined.

(** ** More on the auth stub *)

Lemma login_for_access_token_run (st : AppState) (name password : string) :
  login_for_access_token name password st =
  (match users_db st !! name with
   | Some u =>
       if String.eqb password (hashed_password u)
       then Return (JObj [("access_token", JStr (username u));
                          ("token_type", JStr "bearer")])
       else Raise (unauthorized "Incorrect username or password")
   | None => Raise (unauthorized "Incorrect username or password")
   end, st).
Proof.
  unfold login_for_access_token. unfold mbind, M_bind, bind.
  rewrite authenticate_user_run.
  destruct (users_db st !! name) as [u|]; [|reflexivity].
  destruct (String.eqb password (hashed_password u)); reflexivity.
Qed.

(** The token a successful login hands back authenticates its owner: a
    protected handler called with it runs its body on the record the
    login was checked against. *)
Theorem login_token_authenticates {A} (st st' : AppState)
    (name password : string) (resp : json) (body : UserInDB -> M A) :
  keys_are_usernames (users_db st) ->
  login_for_access_token name password st = (Return resp, st') ->
  exists token u,
    py_getitem resp "access_token" = Return (JStr token)
    /\ users_db st !! name = Some u
    /\ password = hashed_password u
    /\ get_current_user token st' = (Return u, st')
    /\ Depends_get_current_user token body st' = body u st'.
Proof.
  intros Hkeys. rewrite login_for_access_token_run.
  destruct (users_db st !! name) as [u|] eqn:Hu; [|discriminate].
  destruct (String.eqb_spec password (hashed_password u)) as [Hp|Hp];
    [|discriminate].
  intros H. inversion H. subst resp st'. clear H.
  exists (username u), u. rewrite (Hkeys _ _ Hu).
  split; [reflexivity|]. split; [reflexivity|]. split; [exact Hp|].
  rewrite get_current_user_run, Depends_get_current_user_run, Hu. auto.
Qed.

Lemma login_token_authenticates_witness :
  exists token u,
    py_getitem (JObj [("access_token", JStr "testuser");
                      ("token_type", JStr "bearer")]) "access_token"
    = Return (JStr token)
    /\ users_db sample_state !! "testuser" = Some u
    /\ "fakehashedpassword" = hashed_password u
    /\ get_current_user token sample_state = (Return u, sample_state)
    /\ Depends_get_current_user token
         (fun current_user => ret (username current_user)) sample_state
       = ret (username u) sample_state.
Proof.
  apply (login_token_authenticates sample_state sample_state "testuser"
           "fakehashedpassword" _
           (fun current_user => ret (username current_user))
           seed_users_db_keys eq_refl).
Defined.



(** For an authenticated caller, [POST /quiz/submit] answers with the
    fixed message, the dictionary of profile A exactly when more than
    half of the answers are above 3 and that of profile B otherwise, and
    the [username] of the caller's record. *)
Theorem submit_quiz_response (st : AppState) (q : QuizSubmission)
    (token : string) (u : UserInDB) :
  users_db st !! token = Some u ->
  submit_quiz q token st =
  (Return (quiz_response
             (if (Z.of_nat (length (answers q))
                  <? 2 * Z.of_nat (count_gt3 (answers q)))%Z
              then profile_A else profile_B)
             (username u)), st).
Proof.
  intros Hu. unfold submit_quiz.
  rewrite Depends_get_current_user_run, Hu.
  rewrite classify_personality_run, positive_answers_count. reflexivity.
Qed.

Lemma submit_quiz_response_witness :
  submit_quiz
    {| answers := [ {| question_id := "q1"; answer := 5 |};
                    {| question_id := "q2"; answer := 4 |};
                    {| question_id := "q3"; answer := 1 |} ] |}
    "testuser" sample_state
  = (Return (quiz_response profile_A "testuser"), sample_state).
Proof.
  apply (submit_quiz_response sample_state
           {| answers := [ {| question_id := "q1"; answer := 5 |};
                           {| question_id := "q2"; answer := 4 |};
                           {| question_id := "q3"; answer := 1 |} ] |}
           "testuser" _ eq_refl).
Defined.

(** ** What the responses do not depend on *)

Lemma ignores_ret {A} (a : A) : ignores_users_db (mret a).
Proof. intros st db. reflexivity. Qed.

Lemma ignores_raise {A} (e : exn) : ignores_users_db (@raise A e).
Proof. intros st db. reflexivity. Qed.

Lemma ignores_lift {A} (r : result A) : ignores_users_db (lift r).
Proof. intros st db. reflexivity. Qed.

Lemma ignores_read_combined_mock_data :
  ignores_users_db read_combined_mock_data.
Proof. intros st db. reflexivity. Qed.

Lemma ignores_uuid4_str : ignores_users_db uuid4_str.
Proof. intros st db. reflexivity. Qed.

Lemma ignores_bind {A B} (m : M A) (k : A -> M B) :
  ignores_users_db m -> (forall a, ignores_users_db (k a)) ->
  ignores_users_db (m ≫= k).
Proof.
  intros Hm Hk st db. unfold mbind, M_bind, bind. rewrite Hm.
  destruct (m st) as [[a|e] st']; cbn [fst snd]; [apply Hk|reflexivity].
Qed.

Lemma ignores_if {A} (b : bool) (m1 m2 : M A) :
  ignores_users_db m1 -> ignores_users_db m2 ->
  ignores_users_db (if b then m1 else m2).
Proof. destruct b; auto. Qed.

Ltac ignores_step :=
  first [ apply ignores_bind; [|intros ?]
        | apply ignores_if
        | apply ignores_ret
        | apply ignores_raise
        | apply ignores_lift
        | apply ignores_read_combined_mock_data
        | apply ignores_uuid4_str ].

Lemma ignores_get_career_trends' career metric :
  ignores_users_db (get_career_trends' career metric).
Proof. unfold get_career_trends'. repeat ignores_step. Qed.

Lemma ignores_simulate_career `{V : Pydantic} person_id params :
  ignores_users_db (simulate_career person_id params).
Proof. unfold simulate_career. repeat ignores_step. Qed.

Lemma Depends_same_credentials (st : AppState) (db : gmap string UserInDB)
    (token : string) (resp : string -> json) :
  same_credentials (users_db st) db ->
  (Depends_get_current_user token
     (fun current_user => mret (resp (username current_user)))
     (with_users_db st db)).1
  = (Depends_get_current_user token
       (fun current_user => mret (resp (username current_user))) st).1.
Proof.
  intros Hsame. rewrite !Depends_get_current_user_run.
  specialize (Hsame token). cbn [users_db with_users_db].
  destruct (users_db st !! token) as [u1|], (db !! token) as [u2|];
    try contradiction; [|reflexivity].
  destruct Hsame as [Hname _]. cbn. rewrite Hname. reflexivity.
Qed.

Lemma login_same_credentials (st : AppState) (db : gmap string UserInDB)
    (name password : string) :
  same_credentials (users_db st) db ->
  (login_for_access_token name password (with_users_db st db)).1
  = (login_for_access_token name password st).1.
Proof.
  intros Hsame. rewrite !login_for_access_token_run.
  specialize (Hsame name). cbn [users_db with_users_db fst].
  destruct (users_db st !! name) as [u1|], (db !! name) as [u2|];
    try contradiction; [|reflexivity].
  destruct Hsame as [Hname Hpw]. rewrite Hname, Hpw. reflexivity.
Qed.

(** No response depends on the [email] or [disabled] fields of the user
    table: over two tables that agree on keys, [username] and
    [hashed_password], every request is answered alike.  In particular
    a user marked disabled logs in and is served like any other. *)
Theorem responses_ignore_email_and_disabled `{V : Pydantic} (r : Request)
    (st : AppState) (db : gmap string UserInDB) :
  same_credentials (users_db st) db ->
  (app r (with_users_db st db)).1 = (app r st).1.
Proof.
  intros Hsame. unfold app, dispatch.
  destruct (List.find (full_match r) routes) as [rt|] eqn:Hfind.
  - apply List.find_some in Hfind as [Hin _].
    unfold routes in Hin. cbn [List.In] in Hin.
    repeat (destruct Hin as [Hin|Hin]; [subst rt; cbn [route_endpoint]|]);
      try contradiction.
    + apply login_same_credentials, Hsame.
    + reflexivity.
    + unfold submit_quiz.
      apply (Depends_same_credentials st db _
               (fun name => JObj [("message", JStr "Quiz submitted successfully");
                                  ("profile", _); ("user", JStr name)])), Hsame.
    + unfold get_career_recommendations.
      apply (Depends_same_credentials st db _
               (fun name => JObj [("recommendations", _);
                                  ("user", JStr name)])), Hsame.
    + unfold get_career_trends.
      apply (Depends_same_credentials st db _ (fun _ => JArr _)), Hsame.
    + unfold generate_simulation.
      apply (Depends_same_credentials st db _
               (fun name => JObj [("scenario", _); ("user", JStr name)])),
        Hsame.
    + rewrite ignores_get_career_trends'. reflexivity.
    + reflexivity.
    + rewrite ignores_bind;
        [reflexivity|apply ignores_simulate_career|intros a; apply ignores_ret].
  - destruct (List.find (path_match r) routes); reflexivity.
Qed.

Lemma responses_ignore_email_and_disabled_witness :
  (app (V := strict_pydantic) (sample_request POST "/token" "")
       (with_users_db sample_state
          {[ "testuser" :=
               {| username := "testuser"; email := None;
                  disabled := Some true;
                  hashed_password := "fakehashedpassword" |} ]})).1
  = (app (V := strict_pydantic) (sample_request POST "/token" "")
         sample_state).1.
Proof.
  apply (responses_ignore_email_and_disabled (V := strict_pydantic)).
  intros k. cbn [users_db sample_state startup]. unfold seed_users_db.
  destruct (decide (k = "testuser")) as [->|Hne].
  - rewrite !lookup_singleton_eq. split; reflexivity.
  - rewrite !lookup_singleton_ne by congruence. exact I.
Defined.

(** ** What the handlers do to the state *)

Section Keeps.
Variable R : AppState -> AppState -> Prop.
Hypothesis R_refl : forall st, R st st.
Hypothesis R_trans : forall a b c, R a b -> R b c -> R a c.

Lemma keeps_ret {A} (a : A) : keeps R (mret a).
Proof. intros st. apply R_refl. Qed.

Lemma keeps_raise {A} (e : exn) : keeps R (@raise A e).
Proof. intros st. apply R_refl. Qed.

Lemma keeps_lift {A} (r : result A) : keeps R (lift r).
Proof. intros st. apply R_refl. Qed.

Lemma keeps_read_users_db : keeps R read_users_db.
Proof. intros st. apply R_refl. Qed.

Lemma keeps_read_combined_mock_data : keeps R read_combined_mock_data.
Proof. intros st. apply R_refl. Qed.

Lemma keeps_bind {A B} (m : M A) (k : A -> M B) :
  keeps R m -> (forall a, keeps R (k a)) -> keeps R (m ≫= k).
Proof.
  intros Hm Hk st. unfold mbind, M_bind, bind.
  specialize (Hm st). destruct (m st) as [[a|e] st']; cbn in *.
  - eapply R_trans; [exact Hm | apply Hk].
  - exact Hm.
Qed.

Lemma keeps_if {A} (b : bool) (m1 m2 : M A) :
  keeps R m1 -> keeps R m2 -> keeps R (if b then m1 else m2).
Proof. destruct b; auto. Qed.

Ltac keeps_step :=
  first [ apply keeps_bind; [|intros ?]
        | apply keeps_if
        | apply keeps_ret
        | apply keeps_raise
        | apply keeps_lift
        | apply keeps_read_users_db
        | apply keeps_read_combined_mock_data
        | assumption
        | match goal with
          | |- keeps R (match ?x with _ => _ end) => destruct x
          end ].

Lemma keeps_login name password :
  keeps R (login_for_access_token name password).
Proof.
  unfold login_for_access_token, authenticate_user, get_user.
  repeat keeps_step.
Qed.

Lemma keeps_Depends {A} token (body : UserInDB -> M A) :
  (forall u, keeps R (body u)) ->
  keeps R (Depends_get_current_user token body).
Proof.
  intros Hb. unfold Depends_get_current_user, get_current_user, get_user.
  apply keeps_bind; [repeat keeps_step|exact Hb].
Qed.

Lemma keeps_get_career_trends' career metric :
  keeps R (get_career_trends' career metric).
Proof. unfold get_career_trends'. repeat keeps_step. Qed.

Lemma keeps_simulate_career `{V : Pydantic} person_id params :
  keeps R uuid4_str -> keeps R (simulate_career person_id params).
Proof. intros Huuid. unfold simulate_career. repeat keeps_step. Qed.

(** The path operations that draw no identifier. *)
Lemma keeps_route `{V : Pydantic} (rt : Route) (r : Request) :
  In rt routes ->
  route_path rt <> "/simulate" \/ keeps R uuid4_str ->
  keeps R (route_endpoint rt r).
Proof.
  unfold routes. cbn [List.In]. intros Hin Hsim.
  repeat (destruct Hin as [Hin|Hin]; [subst rt; cbn [route_endpoint]|]);
    try contradiction.
  - apply keeps_login.
  - apply keeps_ret.
  - apply keeps_Depends. intros u. apply keeps_ret.
  - apply keeps_Depends. intros u. apply keeps_ret.
  - apply keeps_Depends. intros u. apply keeps_ret.
  - apply keeps_Depends. intros u. apply keeps_ret.
  - apply keeps_get_career_trends'.
  - apply keeps_ret.
  - destruct Hsim as [Hne|Huuid]; [cbn in Hne; congruence|].
    apply keeps_bind; [apply keeps_simulate_career, Huuid|].
    intros resp. apply keeps_ret.
Qed.

Lemma keeps_app `{V : Pydantic} (r : Request) :
  req_path r <> "/simulate" \/ keeps R uuid4_str ->
  keeps R (app r).
Proof.
  intros Hsim. unfold app, dispatch.
  destruct (List.find (full_match r) routes) as [rt|] eqn:Hfind.
  - apply List.find_some in Hfind as [Hin Hmatch].
    apply keeps_route; [exact Hin|].
    destruct Hsim as [Hne|Huuid]; [left|right; exact Huuid].
    unfold full_match in Hmatch. apply andb_prop in Hmatch as [Hpath _].
    apply String.eqb_eq in Hpath. congruence.
  - destruct (List.find (path_match r) routes); apply keeps_raise.
Qed.

End Keeps.

Lemma source_advanced_refl st : source_advanced st st.
Proof. split; [reflexivity|lia]. Qed.

Lemma source_advanced_trans a b c :
  source_advanced a b -> source_advanced b c -> source_advanced a c.
Proof. intros [H1 H2] [H3 H4]. split; [congruence|lia]. Qed.

Lemma source_advanced_uuid4_str : keeps source_advanced uuid4_str.
Proof. intros st. split; cbn; [reflexivity|lia]. Qed.

Lemma serve_source_advanced `{V : Pydantic} (rs : list Request)
    (st : AppState) :
  source_advanced st (serve rs st).
Proof.
  revert st. induction rs as [|r rs IH]; intros st; cbn [serve].
  - apply source_advanced_refl.
  - eapply source_advanced_trans; [|apply IH].
    apply (keeps_app source_advanced source_advanced_refl
             source_advanced_trans r).
    right. apply source_advanced_uuid4_str.
Qed.

Lemma serve_same_tables `{V : Pydantic} (rs : list Request) (st : AppState) :
  same_tables st (serve rs st).
Proof.
  revert st. induction rs as [|r rs IH]; intros st; cbn [serve].
  - apply same_tables_refl.
  - eapply same_tables_trans; [apply read_only_app | apply IH].
Qed.

(** Only [GET /simulate] touches the process state: a request for any
    other path, answered or failed, leaves the whole state (tables and
    identifier source) exactly as it found it. *)
Theorem only_simulate_changes_state `{V : Pydantic} (r : Request)
    (st : AppState) :
  req_path r <> "/simulate" ->
  (app r st).2 = st.
Proof.
  intros Hne. symmetry.
  apply (keeps_app eq (fun s => eq_refl)
           (fun a b c H1 H2 => eq_trans H1 H2) r (or_introl Hne) st).
Qed.

Lemma only_simulate_changes_state_witness :
  (app (V := strict_pydantic) (sample_request GET "/api/trends" "")
       sample_state).2 = sample_state.
Proof.
  apply (only_simulate_changes_state (V := strict_pydantic)
           (sample_request GET "/api/trends" "") sample_state).
  discriminate.
Defined.

(** Session identifiers are not reused: with a source that never repeats
    itself, a timeline served after any number of further requests
    carries another identifier than an earlier one. *)
Theorem session_ids_never_reused `{V : Pydantic} (st st1 st2 : AppState)
    (rs : list Request) (pid1 pid2 : string)
    (sp1 sp2 : option (dict json)) (resp1 resp2 : TimelineResponse) :
  (forall m n, uuid_source st m = uuid_source st n -> m = n) ->
  simulate_career pid1 sp1 st = (Return resp1, st1) ->
  simulate_career pid2 sp2 (serve rs st1) = (Return resp2, st2) ->
  session_id resp1 <> session_id resp2.
Proof.
  intros Hinj H1 H2.
  apply simulate_career_returns in H1 as (Hs1 & _ & ->).
  apply simulate_career_returns in H2 as (Hs2 & _ & _).
  destruct (serve_source_advanced rs (after_draw st)) as [Hsrc Hle].
  rewrite Hs1, Hs2, Hsrc. cbn [after_draw uuid_source uuid_drawn] in *.
  intros Heq. apply Hinj in Heq. lia.
Qed.

Lemma tally_inj (m n : nat) : tally m = tally n -> m = n.
Proof.
  revert n. induction m as [|m IH]; intros [|n] H; cbn in H;
    try discriminate; [reflexivity|].
  inversion H. f_equal. auto.
Qed.

Lemma session_ids_never_reused_witness :
  session_id {| session_id := ""; person_id := "intern"; timeline := [] |}
  <> session_id {| session_id := "||"; person_id := "intern";
                   timeline := [] |}.
Proof.
  apply (session_ids_never_reused (V := strict_pydantic)
           (startup (Some sample_doc) tally)
           (after_draw (startup (Some sample_doc) tally))
           (after_draw (after_draw (after_draw
              (startup (Some sample_doc) tally))))
           [sample_request GET "/simulate" ""; sample_request GET "/" ""]
           "intern" "intern" None None).
  - intros m n. apply tally_inj.
  - reflexivity.
  - reflexivity.
Defined.

(** ** The mock document when the file is missing *)

(** Without [combined_mock_data.json] the document is the empty mapping,
    and it stays so: whatever was served before, [GET /api/trends]
    answers "Career not found" and [GET /simulate] "Persona not found"
    for every key, and no identifier is drawn. *)
Theorem missing_file_all_not_found `{V : Pydantic} (source : nat -> string)
    (rs : list Request) :
  (forall career metric,
      get_career_trends' career metric (serve rs (startup None source)) =
      (Raise (not_found "Career not found"), serve rs (startup None source)))
  /\ (forall person_id params,
        simulate_career person_id params (serve rs (startup None source)) =
        (Raise (not_found "Persona not found"),
         serve rs (startup None source))).
Proof.
  destruct (serve_same_tables rs (startup None source)) as [_ Hdata].
  cbn [combined_mock_data startup load_combined_mock_data] in Hdata.
  split.
  - intros career metric.
    apply (trends_career_falsy _ []); [exact Hdata|reflexivity].
  - intros person_id params.
    apply (simulate_career_falsy _ []); [exact Hdata|reflexivity].
Qed.

(** ** More on [GET /api/trends] *)

(** Whatever [GET /api/trends] returns is in the document: an answer
    means that the career maps to a mapping, its "trends" entry to a
    mapping, and the metric to the truthy value sent back as ["data"];
    the state is as before. *)
Theorem api_trends_returns_stored (st st' : AppState)
    (career metric : string) (resp : json) :
  get_career_trends' career metric st = (Return resp, st') ->
  st' = st
  /\ exists d c t v,
      combined_mock_data st = JObj d
      /\ dict_get d career = Some (JObj c)
      /\ dict_get c "trends" = Some (JObj t)
      /\ dict_get t metric = Some v
      /\ truthy v = true
      /\ resp = trends_response career metric v.
Proof.
  unfold get_career_trends'. unfold_monad.
  destruct (combined_mock_data st) as [| | | | | |d] eqn:Hdata;
    cbn [py_get]; try discriminate.
  destruct (dict_get d career) as [cv|] eqn:Hc;
    cbn [default from_option id]; [|discriminate].
  destruct (truthy cv) eqn:Hcv; cbn [negb]; [|discriminate].
  destruct cv as [| | | | | |c]; cbn [py_get]; try discriminate.
  destruct (dict_get c "trends") as [tv|] eqn:Ht;
    cbn [default from_option id py_get dict_get truthy negb];
    [|discriminate].
  destruct tv as [| | | | | |t]; cbn [py_get]; try discriminate.
  destruct (dict_get t metric) as [v|] eqn:Hv;
    cbn [default from_option id truthy negb]; [|discriminate].
  destruct (truthy v) eqn:Hvt; cbn [negb]; [|discriminate].
  intros H. inversion H. subst. split; [reflexivity|].
  exists d, c, t, v. auto 10.
Qed.

Lemma api_trends_returns_stored_witness :
  exists d c t v,
    combined_mock_data sample_state = JObj d
    /\ dict_get d "swe" = Some (JObj c)
    /\ dict_get c "trends" = Some (JObj t)
    /\ dict_get t "salary" = Some v
    /\ truthy v = true
    /\ trends_response "swe" "salary" (JArr [JInt 100; JInt 120])
       = trends_response "swe" "salary" v.
Proof.
  apply (api_trends_returns_stored sample_state sample_state "swe" "salary"
           (trends_response "swe" "salary" (JArr [JInt 100; JInt 120]))
           eq_refl).
Defined.

(** Where the document is not shaped as the handler expects, the
    request fails with [AttributeError] instead of a 404: when the
    document itself is not a mapping, when the career maps to a truthy
    value that is not a mapping, and when the "trends" entry is present
    but not a mapping ([null] included). *)
Theorem api_trends_malformed (st : AppState) (career metric : string) :
  (is_mapping (combined_mock_data st) = false ->
   get_career_trends' career metric st = (Raise AttributeError, st))
  /\ (forall d v,
        combined_mock_data st = JObj d ->
        dict_get d career = Some v -> truthy v = true ->
        is_mapping v = false ->
        get_career_trends' career metric st = (Raise AttributeError, st))
  /\ (forall d c tv,
        combined_mock_data st = JObj d ->
        dict_get d career = Some (JObj c) ->
        dict_get c "trends" = Some tv -> is_mapping tv = false ->
        get_career_trends' career metric st = (Raise AttributeError, st)).
Proof.
  split; [|split].
  - intros Hshape. unfold get_career_trends'. unfold_monad.
    destruct (combined_mock_data st); try discriminate Hshape; reflexivity.
  - intros d v Hdata Hv Htruthy Hshape. run_trends Hdata. rewrite Hv.
    cbn [default from_option id]. rewrite Htruthy. cbn [negb].
    destruct v; try discriminate Hshape; reflexivity.
  - intros d c tv Hdata Hc Ht Hshape. run_trends Hdata. rewrite Hc.
    cbn [default from_option id].
    rewrite (truthy_JObj c (dict_get_Some_nonempty _ _ _ Ht)).
    cbn [negb py_get]. rewrite Ht. cbn [default from_option id].
    destruct tv; try discriminate Hshape; reflexivity.
Qed.

Lemma api_trends_malformed_witness :
  get_career_trends' "listed" "salary" odd_state =
  (Raise AttributeError, odd_state)
  /\ get_career_trends' "nulltrends" "salary" odd_state =
     (Raise AttributeError, odd_state).
Proof.
  destruct (api_trends_malformed odd_state "listed" "salary")
    as (_ & H1 & _).
  destruct (api_trends_malformed odd_state "nulltrends" "salary")
    as (_ & _ & H2).
  split.
  - eapply (H1 _ (JArr [JInt 1])); reflexivity.
  - eapply (H2 _ [("trends", JNull)] JNull); reflexivity.
Defined.

(** ** More on [GET /simulate] *)

Section SimulateMore.
Context {V : Pydantic}.

Lemma event_of_template_Return (event_template : json) (e : Event) :
  event_of_template event_template = Return e ->
  event_from_template event_template e.
Proof.
  unfold event_of_template, Event_init. unfold_monad.
  destruct event_template as [| | | | | |t]; cbn [py_get py_getitem];
    try discriminate.
  destruct (dict_get t "time") as [x1|] eqn:H1; [|discriminate].
  destruct (dict_get t "title") as [x2|] eqn:H2; [|discriminate].
  destruct (dict_get t "description") as [x3|] eqn:H3; [|discriminate].
  destruct (dict_get t "visual_prompt") as [x4|] eqn:H4; [|discriminate].
  destruct (dict_get t "media_type") as [x5|] eqn:H5; [|discriminate].
  destruct (validate_str x1) as [s1|] eqn:V1; [|discriminate].
  destruct (validate_str x2) as [s2|] eqn:V2; [|discriminate].
  destruct (validate_str x3) as [s3|] eqn:V3; [|discriminate].
  destruct (validate_str x4) as [s4|] eqn:V4; [|discriminate].
  destruct (validate_str x5) as [s5|] eqn:V5; [|discriminate].
  destruct (validate_str (default (JStr "") (dict_get t "media_url")))
    as [s6|] eqn:V6; [|discriminate].
  intros H. inversion H. subst e. clear H.
  exists t, x1, x2, x3, x4, x5. cbn. auto 15.
Qed.

Lemma event_of_template_not_mapping (event_template : json) :
  is_mapping event_template = false ->
  event_of_template event_template = Raise AttributeError.
Proof. destruct event_template; try discriminate; reflexivity. Qed.

Lemma event_of_template_missing (t : dict json) (k : string) :
  List.find (fun f => negb (dict_has t f)) required_fields = Some k ->
  event_of_template (JObj t) = Raise (KeyError k).
Proof.
  unfold required_fields, dict_has, event_of_template. unfold_monad.
  cbn [List.find py_get py_getitem].
  destruct (dict_get t "time"); cbn [negb];
    [|intros H; inversion H; reflexivity].
  destruct (dict_get t "title"); cbn [negb];
    [|intros H; inversion H; reflexivity].
  destruct (dict_get t "description"); cbn [negb];
    [|intros H; inversion H; reflexivity].
  destruct (dict_get t "visual_prompt"); cbn [negb];
    [|intros H; inversion H; reflexivity].
  destruct (dict_get t "media_type"); cbn [negb];
    [|intros H; inversion H; reflexivity].
  discriminate.
Qed.

Lemma simulate_loop_Return (templates : list json) (acc evs : list Event) :
  simulate_loop templates acc = Return evs ->
  exists new, evs = acc ++ new /\ Forall2 event_from_template templates new.
Proof.
  revert acc. induction templates as [|t ts IH]; intros acc;
    cbn [simulate_loop].
  - intros H. inversion H. exists []. rewrite app_nil_r.
    split; [reflexivity|apply Forall2_nil_2].
  - unfold_monad. destruct (event_of_template t) as [e|] eqn:He;
      [|discriminate].
    intros H. apply IH in H as (new & -> & Hall).
    exists (e :: new). rewrite <- app_assoc. split; [reflexivity|].
    apply Forall2_cons_2; [apply event_of_template_Return, He|exact Hall].
Qed.

Lemma simulate_loop_abort (ts1 ts2 : list json) (t : json)
    (evs acc : list Event) (e : exn) :
  Forall2 copies_template ts1 evs ->
  event_of_template t = Raise e ->
  simulate_loop (ts1 ++ t :: ts2) acc = Raise e.
Proof.
  intros Hcopies Hbad. revert acc.
  induction Hcopies as [|t1 e1 ts es Hte _ IH]; intros acc.
  - rewrite app_nil_l. cbn [simulate_loop]. rewrite Hbad. reflexivity.
  - rewrite <- app_comm_cons. cbn [simulate_loop].
    rewrite (event_of_template_copies t1 e1 Hte). unfold_monad. apply IH.
Qed.

End SimulateMore.

(** The timeline of an answer of [GET /simulate] comes from the
    document, item by item: the persona is a non-empty mapping, its
    "events_template" entry is a list (or missing, or an empty string or
    mapping), and the events are, in order, what the templates validate
    to, one for one. *)
Theorem simulate_career_returns_events `{V : Pydantic} (st st' : AppState)
    (pid : string) (sp : option (dict json)) (resp : TimelineResponse) :
  simulate_career pid sp st = (Return resp, st') ->
  exists d p ts,
    combined_mock_data st = JObj d
    /\ dict_get d pid = Some (JObj p)
    /\ p <> []
    /\ (default (JArr []) (dict_get p "events_template") = JArr ts
        \/ (ts = []
            /\ (dict_get p "events_template" = Some (JStr "")
                \/ dict_get p "events_template" = Some (JObj []))))
    /\ Forall2 event_from_template ts (timeline resp)
    /\ length (timeline resp) = length ts.
Proof.
  unfold simulate_career. unfold_monad.
  destruct (combined_mock_data st) as [| | | | | |d] eqn:Hdata;
    cbn [py_get]; try discriminate.
  destruct (dict_get d pid) as [pv|] eqn:Hp;
    cbn [default from_option id]; [|discriminate].
  destruct (truthy pv) eqn:Hpv; cbn [negb uuid4_str]; [|discriminate].
  destruct pv as [| | | | | |p]; cbn [py_get]; try discriminate.
  destruct (py_iter (default (JArr []) (dict_get p "events_template")))
    as [ts|] eqn:Hiter; [|discriminate].
  destruct (simulate_loop ts []) as [evs|] eqn:Hloop; [|discriminate].
  intros H. inversion H. subst. clear H. cbn [timeline].
  apply simulate_loop_Return in Hloop as (new & -> & Hall).
  cbn [app]. exists d, p, ts.
  split; [reflexivity|]. split; [exact Hp|].
  split; [intros ->; discriminate Hpv|].
  split; [|split; [exact Hall|symmetry; exact (Forall2_length _ _ _ Hall)]].
  destruct (dict_get p "events_template") as [tv|];
    cbn [default from_option id] in Hiter |- *;
    [|left; cbn in Hiter; congruence].
  destruct tv as [| | | |s|l|o]; cbn [py_iter] in Hiter; try discriminate.
  - right. inversion Hiter. subst ts.
    destruct s as [|a s]; [auto|].
    cbn [str_chars] in Hall. inversion Hall as [|? e ? ? Hbad]. subst.
    destruct Hbad as (t & ? & ? & ? & ? & ? & Habs & _). discriminate Habs.
  - left. congruence.
  - right. inversion Hiter. subst ts.
    destruct o as [|[k v] o]; [auto|].
    cbn in Hall. inversion Hall as [|? e ? ? Hbad]. subst.
    destruct Hbad as (t & ? & ? & ? & ? & ? & Habs & _). discriminate Habs.
Qed.

Lemma simulate_career_returns_events_witness :
  exists d p ts,
    combined_mock_data sample_state = JObj d
    /\ dict_get d "swe" = Some (JObj p)
    /\ p <> []
    /\ (default (JArr []) (dict_get p "events_template") = JArr ts
        \/ (ts = []
            /\ (dict_get p "events_template" = Some (JStr "")
                \/ dict_get p "events_template" = Some (JObj []))))
    /\ Forall2 (event_from_template (V := strict_pydantic)) ts
         [ {| time := "09:00"; title := "Stand-up";
              description := "Daily sync";
              visual_prompt := "team at a board";
              media_type := "image"; media_url := "" |};
           {| time := "14:00"; title := "Review";
              description := "Code review";
              visual_prompt := "two screens";
              media_type := "video";
              media_url := "https://cdn/r.mp4" |} ]
    /\ 2%nat = length ts.
Proof.
  apply (simulate_career_returns_events (V := strict_pydantic) sample_state
           (after_draw sample_state) "swe" None _ eq_refl).
Defined.

(** [GET /simulate] gives no partial timeline: the first template that
    is not a mapping makes it fail with [AttributeError], the first
    template that lacks a required field with the [KeyError] of the
    first field missing in the order time, title, description,
    visual_prompt, media_type; the templates after it are not looked at,
    and the identifier of the call has been drawn all the same. *)
Theorem simulate_career_first_bad_template `{V : Pydantic} (st : AppState)
    (d p : dict json) (pid : string) (sp : option (dict json))
    (ts1 ts2 : list json) (t : json) (evs : list Event) :
  combined_mock_data st = JObj d ->
  dict_get d pid = Some (JObj p) ->
  dict_get p "events_template" = Some (JArr (ts1 ++ t :: ts2)) ->
  Forall2 copies_template ts1 evs ->
  (is_mapping t = false ->
   simulate_career pid sp st = (Raise AttributeError, after_draw st))
  /\ (forall td k,
        t = JObj td ->
        List.find (fun f => negb (dict_has td f)) required_fields = Some k ->
        simulate_career pid sp st = (Raise (KeyError k), after_draw st)).
Proof.
  intros Hdata Hp Hts Hcopies.
  assert (Hrun : forall e, event_of_template t = Raise e ->
                 simulate_career pid sp st = (Raise e, after_draw st)).
  { intros e Hbad. unfold simulate_career. unfold_monad.
    rewrite Hdata. cbn [py_get]. rewrite Hp. cbn [default from_option id].
    rewrite (truthy_JObj p (dict_get_Some_nonempty _ _ _ Hts)).
    cbn [negb uuid4_str py_get]. rewrite Hts.
    cbn [default from_option id py_iter].
    rewrite (simulate_loop_abort ts1 ts2 t evs [] e Hcopies Hbad).
    reflexivity. }
  split.
  - intros Hshape. apply Hrun, event_of_template_not_mapping, Hshape.
  - intros td k -> Hfind. apply Hrun, event_of_template_missing, Hfind.
Qed.

Lemma simulate_career_first_bad_template_witness :
  simulate_career (V := strict_pydantic) "second" None odd_state =
  (Raise (KeyError "title"), after_draw odd_state).
Proof.
  eapply (proj2 (simulate_career_first_bad_template (V := strict_pydantic)
                   odd_state _ _ "second" None
                   [JObj [("time", JStr "09:00"); ("title", JStr "Stand-up");
                          ("description", JStr "Daily sync");
                          ("visual_prompt", JStr "team at a board");
                          ("media_type", JStr "image")]]
                   [JInt 3]
                   (JObj [("time", JStr "10:00");
                          ("description", JStr "no title")])
                   [ {| time := "09:00"; title := "Stand-up";
                        description := "Daily sync";
                        visual_prompt := "team at a board";
                        media_type := "image"; media_url := "" |} ]
                   eq_refl eq_refl eq_refl _));
    [reflexivity|reflexivity].
  Unshelve.
  apply Forall2_cons_2; [|apply Forall2_nil_2].
  eexists. cbn. repeat (split; [reflexivity|]). left. split; reflexivity.
Defined.

(** How [GET /simulate] fails, or does not, on a persona of another
    shape: a truthy persona that is not a mapping gives
    [AttributeError]; an "events_template" that is [null], a boolean or
    a number gives [TypeError]; a non-empty string or mapping there gives
    [AttributeError], its items being strings; an empty string or
    mapping there gives an answer with an empty timeline.  In each case
    the identifier of the call has been drawn. *)
Theorem simulate_career_malformed `{V : Pydantic} (st : AppState)
    (d : dict json) (pid : string) (sp : option (dict json)) :
  combined_mock_data st = JObj d ->
  (forall v,
      dict_get d pid = Some v -> truthy v = true -> is_mapping v = false ->
      simulate_career pid sp st = (Raise AttributeError, after_draw st))
  /\ (forall p tv,
        dict_get d pid = Some (JObj p) ->
        dict_get p "events_template" = Some tv ->
        match tv with
        | JNull | JBool _ | JInt _ | JFloat _ =>
            simulate_career pid sp st = (Raise TypeError, after_draw st)
        | JStr (String _ _) | JObj (_ :: _) =>
            simulate_career pid sp st = (Raise AttributeError, after_draw st)
        | JStr EmptyString | JObj [] =>
            simulate_career pid sp st =
            (Return {| session_id := uuid_source st (uuid_drawn st);
                       person_id := pid;
                       timeline := [] |}, after_draw st)
        | JArr _ => True
        end).
Proof.
  intros Hdata. split.
  - intros v Hv Htruthy Hshape. unfold simulate_career. unfold_monad.
    rewrite Hdata. cbn [py_get]. rewrite Hv. cbn [default from_option id].
    rewrite Htruthy. cbn [negb uuid4_str].
    destruct v; try discriminate Hshape; reflexivity.
  - intros p tv Hp Ht. unfold simulate_career. unfold_monad.
    rewrite Hdata. cbn [py_get]. rewrite Hp. cbn [default from_option id].
    rewrite (truthy_JObj p (dict_get_Some_nonempty _ _ _ Ht)).
    cbn [negb uuid4_str py_get]. rewrite Ht. cbn [default from_option id].
    destruct tv as [| | | |s|l|o]; try reflexivity; try exact I.
    + destruct s; reflexivity.
    + destruct o as [|[k v] o]; reflexivity.
Qed.

Lemma simulate_career_malformed_witness :
  simulate_career (V := strict_pydantic) "listed" None odd_state =
  (Raise AttributeError, after_draw odd_state)
  /\ simulate_career (V := strict_pydantic) "notemplates" None odd_state =
     (Raise TypeError, after_draw odd_state)
  /\ simulate_career (V := strict_pydantic) "texttemplates" None odd_state =
     (Raise AttributeError, after_draw odd_state)
  /\ simulate_career (V := strict_pydantic) "blanktemplates" None odd_state =
     (Return {| session_id := "3f2b8c1e-0000-4000-8000-000000000000";
                person_id := "blanktemplates";
                timeline := [] |}, after_draw odd_state).
Proof.
  pose proof (fun pid => simulate_career_malformed (V := strict_pydantic)
                odd_state _ pid None eq_refl) as H.
  split; [|split; [|split]].
  - apply (proj1 (H "listed") (JArr [JInt 1])); reflexivity.
  - apply (proj2 (H "notemplates") _ JNull eq_refl eq_refl).
  - apply (proj2 (H "texttemplates") _ (JStr "ab") eq_refl eq_refl).
  - apply (proj2 (H "blanktemplates") _ (JStr "") eq_refl eq_refl).
Defined.
